(** * A tweet bot: one run of [twitter_bot_py.py]

    The script loads a pool of messages and the record of used ones from
    [tweets.json], draws one unused message, publishes it and stores the
    grown record.  Everything it touches from outside (process
    environment, clock, random source, the remote service) is collected in
    a [host]; the file system and what the run prints or calls are the
    [state] threaded through a small state-and-exception monad.

    Scope of the model.  A file is represented by what reading it as
    UTF-8 JSON yields: an exception or a JSON value.  A dump that
    completes is taken to be read back as the value dumped; the layout of
    the text (indentation, unescaped non-ASCII) is not represented.  A dump
    fails on a string that UTF-8 cannot encode, after the file was emptied
    by opening it, and leaves the beginning of the text behind.  The file
    system is a map from paths to what is found there; opening for writing
    fails on the empty path and under a directory that does not exist.
    Printing accepts every line.  The selection and publishing code is
    modelled on lists of strings; a run whose [tweets] or [used_tweets]
    field is anything else is marked [Unmodelled] and no statement is made
    about it. *)

From stdpp Require Import gmap strings list fin_maps.

Set Warnings "-register-all".

(** ** JSON values, as [json.load] returns them *)

(** A number keeps Python's [repr] of it: the script never looks inside
    one.  A [dict] is a finite map from its keys. *)
Inductive json :=
  | JNull
  | JBool (b : bool)
  | JNum (repr : string)
  | JStr (s : string)
  | JArr (items : list json)
  | JObj (fields : gmap string json).

(** The view of a JSON value as a Python list of [str]. *)
Definition as_str (v : json) : option string :=
  match v with JStr s => Some s | _ => None end.

Definition as_strings (v : json) : option (list string) :=
  match v with
  | JArr items => mapM as_str items
  | _ => None
  end.

Definition of_strings (l : list string) : json := JArr (JStr <$> l).

(** [d.get(key, default)] on a dict. *)
Definition dict_get (d : gmap string json) (key : string) (default : json) : json :=
  match d !! key with
  | Some v => v
  | None => default
  end.

(** A top-level field of a document: only a dict has fields. *)
Definition field (v : json) (key : string) : option json :=
  match v with
  | JObj d => d !! key
  | _ => None
  end.

(** ** Strings that UTF-8 cannot encode *)

(** A Python [str] is kept as the UTF-8 bytes of its code points.  A
    surrogate code point (U+D800 to U+DFFF), which [json.load] produces
    from an unpaired escape such as [\ud83d] and which the UTF-8 codec
    refuses to encode, is kept as the three bytes the same scheme gives
    it: [ED], then a byte from [A0] to [BF], then a continuation byte. *)
Fixpoint has_surrogate (s : string) : bool :=
  match s with
  | String a rest =>
      match rest with
      | String b _ =>
          (Nat.eqb (Ascii.nat_of_ascii a) 237
           && Nat.leb 160 (Ascii.nat_of_ascii b)
           && Nat.leb (Ascii.nat_of_ascii b) 191)
          || has_surrogate rest
      | EmptyString => false
      end
  | EmptyString => false
  end.

(** Whether [json.dump(..., ensure_ascii=False)] into a UTF-8 file gets
    through: every string of the value, dict keys included, must be free
    of surrogates. *)
Fixpoint encodable (v : json) : bool :=
  match v with
  | JStr s => negb (has_surrogate s)
  | JArr items => forallb encodable items
  | JObj fields =>
      map_fold (fun key v' rest => negb (has_surrogate key) && encodable v' && rest)
        true fields
  | _ => true
  end.

(** ** The world of a run *)

(** What is found at a path.  A path the file system has nothing for
    holds no file, and one can be created there.  [NoDirectory] marks a
    path under a directory that does not exist: nothing can be opened
    there.  [Undecodable] is a file whose bytes are not UTF-8 text;
    [Malformed] is text that [json.load] rejects; [Fragment data] is the
    beginning of the text of [data], left by a dump that failed midway,
    which [json.load] rejects as well. *)
Inductive content :=
  | NoDirectory
  | Undecodable
  | Malformed (text : string)
  | Fragment (data : json)
  | Document (v : json).

Inductive exn :=
  | FileNotFoundError
  | UnicodeDecodeError
  | UnicodeEncodeError
  | JSONDecodeError
  | AttributeError
  | TypeError
  | IndexError.

(** [tweepy.Client(...)] as the script builds it. *)
Record client := {
  bearer_token : option string;
  consumer_key : option string;
  consumer_secret : option string;
  access_token : option string;
  access_token_secret : option string;
  wait_on_rate_limit : bool
}.

(** The surroundings of one run.  A network call answers [inl] with the
    user name (resp. the id of the new post) or [inr] with the message of
    the exception it raised. *)
Record host := {
  environ : gmap string string;
  now : string;
  rand : nat;
  net_get_me : client -> string + string;
  net_create_tweet : client -> string -> string + string
}.

Inductive event :=
  | Print (line : string)
  | FileRead (path : string)
  | FileWrite (path : string) (v : json)
  | FileCut (path : string) (v : json)
  | GetMe (reply : string + string)
  | CreateTweet (text : string) (reply : string + string).

Record state := {
  files : gmap string content;
  trace : list event
}.

(** ** The monad of the script *)

(** [Unmodelled] marks a run that left the typed fragment covered here:
    a [tweets] or [used_tweets] field that is not a list of strings. *)
Inductive result (A : Type) :=
  | Returns (a : A)
  | Raises (e : exn)
  | Unmodelled.
Arguments Returns {A} a.
Arguments Raises {A} e.
Arguments Unmodelled {A}.

Definition M (A : Type) : Type := state -> result A * state.

Definition ret {A} (a : A) : M A := fun st => (Returns a, st).

Definition raise {A} (e : exn) : M A := fun st => (Raises e, st).

Definition unmodelled {A} : M A := fun st => (Unmodelled, st).

Definition bind {A B} (m : M A) (k : A -> M B) : M B :=
  fun st =>
    match m st with
    | (Returns a, st') => k a st'
    | (Raises e, st') => (Raises e, st')
    | (Unmodelled, st') => (Unmodelled, st')
    end.

(** [try: m except e: handler e] *)
Definition try_except {A} (m : M A) (handler : exn -> M A) : M A :=
  fun st =>
    match m st with
    | (Raises e, st') => handler e st'
    | r => r
    end.

Declare Scope py_scope.
Delimit Scope py_scope with py.
Notation "x <- m ;; k" := (bind m (fun x => k))
  (at level 100, m at next level, right associativity) : py_scope.
Notation "m ;; k" := (bind m (fun _ => k))
  (at level 100, right associativity) : py_scope.
Open Scope py_scope.

Definition emit (e : event) : M unit :=
  fun st => (Returns tt, {| files := files st; trace := trace st ++ [e] |}).

Definition print (line : string) : M unit := emit (Print line).

Fixpoint for_each {A} (l : list A) (body : A -> M unit) : M unit :=
  match l with
  | [] => ret tt
  | x :: rest => body x ;; for_each rest body
  end.

(** ** File access *)

(** [with open(filename, 'r', encoding='utf-8') as f: json.load(f)] *)
Definition read_json (filename : string) : M json :=
  fun st =>
    let st' := {| files := files st; trace := trace st ++ [FileRead filename] |} in
    match files st !! filename with
    | None | Some NoDirectory => (Raises FileNotFoundError, st')
    | Some Undecodable => (Raises UnicodeDecodeError, st')
    | Some (Malformed _) | Some (Fragment _) => (Raises JSONDecodeError, st')
    | Some (Document v) => (Returns v, st')
    end.

(** [with open(filename, 'w', encoding='utf-8') as f: json.dump(data, f, ...)]

    [open] raises [FileNotFoundError] on the empty path and under a
    missing directory, and nothing has happened.  Once it has succeeded
    the file is empty; [json.dump] writes the text piece by piece, and the
    piece holding a string with a surrogate raises [UnicodeEncodeError]
    when it is encoded: the file keeps the pieces before it (event
    [FileCut]). *)
Definition write_json (filename : string) (data : json) : M unit :=
  fun st =>
    if bool_decide (filename = EmptyString) then (Raises FileNotFoundError, st)
    else
      match files st !! filename with
      | Some NoDirectory => (Raises FileNotFoundError, st)
      | _ =>
          if encodable data then
            (Returns tt,
             {| files := <[filename := Document data]> (files st);
                trace := trace st ++ [FileWrite filename data] |})
          else
            (Raises UnicodeEncodeError,
             {| files := <[filename := Fragment data]> (files st);
                trace := trace st ++ [FileCut filename data] |})
      end.

(** ** The script *)

Definition sample_tweets : list string :=
    ["ðŸŒŸ Starting the day with gratitude! What are you thankful for today?";
     "ðŸ’¡ Remember: Progress, not perfection. Every small step counts!";
     "ðŸš€ Innovation happens when we dare to think differently.";
     "ðŸŒ± Growth mindset: Challenges are opportunities in disguise.";
     "â˜• Good morning! May your coffee be strong and your Monday be short.";
     "ðŸŽ¯ Focus on what you can control, let go of what you can't.";
     "ðŸ“š Learning something new every day keeps the mind sharp!";
     "ðŸŒˆ After every storm comes a rainbow. Keep pushing forward!"].

Definition sample_data : gmap string json :=
  <["used_tweets" := of_strings []]> (<["tweets" := of_strings sample_tweets]> ∅).

Definition create_sample_tweets_file (filename : string) : M unit :=
  write_json filename (JObj sample_data) ;;
  print ("Created sample " +:+ filename +:+ ". Please edit it with your own tweets!").

(** [data.get] exists on a dict only. *)
Definition load_tweets (filename : string) : M (json * json) :=
  try_except
    (data <- read_json filename ;;
     match data with
     | JObj d => ret (dict_get d "tweets" (of_strings []),
                      dict_get d "used_tweets" (of_strings []))
     | _ => raise AttributeError
     end)
    (fun e =>
       match e with
       | FileNotFoundError =>
           print ("Error: " +:+ filename +:+ " not found. Creating sample file...") ;;
           create_sample_tweets_file filename ;;
           ret (of_strings [], of_strings [])
       | JSONDecodeError =>
           print ("Error: Invalid JSON in " +:+ filename) ;;
           ret (of_strings [], of_strings [])
       | _ => raise e
       end).

(** [data['used_tweets'] = ...] is item assignment on a dict; on any other
    JSON value it raises [TypeError]. *)
Definition save_used_tweets (used_tweets : list string) (filename : string) : M unit :=
  data <- try_except (read_json filename)
            (fun _ => ret (JObj (<["used_tweets" := of_strings []]>
                                   (<["tweets" := of_strings []]> ∅)))) ;;
  match data with
  | JObj d => write_json filename (JObj (<["used_tweets" := of_strings used_tweets]> d))
  | _ => raise TypeError
  end.

(** Module-level configuration, read from the environment at import. *)
Definition os_getenv (h : host) (var : string) : option string := environ h !! var.

Definition API_KEY (h : host) := os_getenv h "TWITTER_API_KEY".
Definition API_SECRET (h : host) := os_getenv h "TWITTER_API_SECRET".
Definition ACCESS_TOKEN (h : host) := os_getenv h "TWITTER_ACCESS_TOKEN".
Definition ACCESS_TOKEN_SECRET (h : host) := os_getenv h "TWITTER_ACCESS_TOKEN_SECRET".
Definition BEARER_TOKEN (h : host) := os_getenv h "TWITTER_BEARER_TOKEN".

(** The client of [authenticate_twitter]; building it and [get_me] sit in
    one [try], so the host answers for both at once. *)
Definition make_client (h : host) : client :=
  {| bearer_token := BEARER_TOKEN h;
     consumer_key := API_KEY h;
     consumer_secret := API_SECRET h;
     access_token := ACCESS_TOKEN h;
     access_token_secret := ACCESS_TOKEN_SECRET h;
     wait_on_rate_limit := true |}.

Definition authenticate_twitter (h : host) : M (option client) :=
  let c := make_client h in
  let reply := net_get_me h c in
  emit (GetMe reply) ;;
  match reply with
  | inl username => print ("Authenticated as: @" +:+ username) ;; ret (Some c)
  | inr msg => print ("Authentication failed: " +:+ msg) ;; ret None
  end.

Definition post_tweet (h : host) (c : client) (tweet_text : string) : M bool :=
  let reply := net_create_tweet h c tweet_text in
  emit (CreateTweet tweet_text reply) ;;
  match reply with
  | inl id =>
      print ("Tweet posted successfully: " +:+ tweet_text) ;;
      print ("Tweet ID: " +:+ id) ;;
      ret true
  | inr msg => print ("Error posting tweet: " +:+ msg) ;; ret false
  end.

Definition required_vars : list string :=
  ["TWITTER_API_KEY"; "TWITTER_API_SECRET"; "TWITTER_ACCESS_TOKEN";
   "TWITTER_ACCESS_TOKEN_SECRET"; "TWITTER_BEARER_TOKEN"].

(** Python's [not x] on what [os.getenv] returns: [None] and the empty
    string are falsy. *)
Definition py_not (x : option string) : bool :=
  match x with
  | Some (String _ _) => false
  | _ => true
  end.

Definition missing_vars (h : host) : list string :=
  filter (fun var => py_not (os_getenv h var)) required_vars.

(** [[t for t in tweets if t not in used_tweets]] *)
Definition available_tweets (tweets used_tweets : list string) : list string :=
  filter (fun t => t ∉ used_tweets) tweets.

(** [random.choice(seq)]: [seq[randbelow(len(seq))]], [IndexError] on an
    empty sequence. *)
Definition random_choice (h : host) (seq : list string) : M string :=
  match seq with
  | [] => raise IndexError
  | _ =>
      match seq !! (rand h `mod` length seq) with
      | Some x => ret x
      | None => raise IndexError
      end
  end.

(** The selection block of [main]: the message drawn and the used list
    as it stands after the block. *)
Definition selector (h : host) (tweets used_tweets : list string)
    : M (string * list string) :=
  let available := available_tweets tweets used_tweets in
  reset <-
    match available with
    | [] => print "All tweets have been used. Resetting..." ;; ret ([], tweets)
    | _ => ret (used_tweets, available)
    end ;;
  let '(used_tweets, available) := reset in
  selected_tweet <- random_choice h available ;;
  ret (selected_tweet, used_tweets).

Definition tweets_json : string := "tweets.json".

Definition main (h : host) : M unit :=
  print ("Twitter Bot running at " +:+ now h) ;;
  match missing_vars h with
  | _ :: _ =>
      print "Error: Missing environment variables:" ;;
      for_each (missing_vars h) (fun var => print ("  - " +:+ var)) ;;
      print (String (Ascii.ascii_of_nat 10) "Please set these environment variables before running the script.")
  | [] =>
      loaded <- load_tweets tweets_json ;;
      match as_strings loaded.1 with
      | None => unmodelled
      | Some [] => print "No tweets found in tweets.json"
      | Some tweets =>
          match as_strings loaded.2 with
          | None => unmodelled
          | Some used_tweets =>
              selection <- selector h tweets used_tweets ;;
              let '(selected_tweet, used_tweets) := selection in
              c <- authenticate_twitter h ;;
              match c with
              | None => ret tt
              | Some c =>
                  posted <- post_tweet h c selected_tweet ;;
                  if posted : bool then
                    save_used_tweets (used_tweets ++ [selected_tweet]) tweets_json ;;
                    print "Tweet posted and marked as used."
                  else print "Failed to post tweet."
              end
          end
      end
  end.

(** A run of the script on a file system. *)
Definition run (h : host) (fs : gmap string content) : result unit * state :=
  main h {| files := fs; trace := [] |}.

(** ** Vocabulary of the statements *)

Definition extend (st : state) (evs : list event) : state :=
  {| files := files st; trace := trace st ++ evs |}.

(** A file can be opened for writing at the path. *)
Definition creatable (fs : gmap string content) (filename : string) : Prop :=
  filename <> EmptyString /\ fs !! filename <> Some NoDirectory.

(** A string free of surrogates. *)
Definition clean (s : string) : Prop := has_surrogate s = false.

(** The base object the writer falls back to. *)
Definition empty_data : gmap string json :=
  <["used_tweets" := of_strings []]> (<["tweets" := of_strings []]> ∅).

(** Re-reading fails: nothing at the path, bytes that are not text, or
    text (malformed or cut off) that is not JSON. *)
Definition read_fails (c : option content) : Prop :=
  match c with
  | Some (Document _) => False
  | _ => True
  end.

(** What the selection block leaves behind, as functions of its input. *)
Definition reset_notice (tweets used_tweets : list string) : list event :=
  match available_tweets tweets used_tweets with
  | [] => [Print "All tweets have been used. Resetting..."]
  | _ => []
  end.

Definition candidates (tweets used_tweets : list string) : list string :=
  match available_tweets tweets used_tweets with
  | [] => tweets
  | available => available
  end.

Definition carried_used (tweets used_tweets : list string) : list string :=
  match available_tweets tweets used_tweets with
  | [] => []
  | _ => used_tweets
  end.

Definition drawn (h : host) (seq : list string) : string :=
  default EmptyString (seq !! (rand h `mod` length seq)).

Definition start_line (h : host) : event := Print ("Twitter Bot running at " +:+ now h).

Definition missing_report (h : host) : list event :=
  Print "Error: Missing environment variables:"
  :: (Print ∘ (fun var => "  - " +:+ var) <$> missing_vars h)
  ++ [Print (String (Ascii.ascii_of_nat 10)
               "Please set these environment variables before running the script.")].

(** File and network events, as opposed to printed lines. *)
Definition is_io (e : event) : bool :=
  match e with
  | Print _ => false
  | _ => true
  end.

Definition is_net (e : event) : bool :=
  match e with
  | GetMe _ | CreateTweet _ _ => true
  | _ => false
  end.

(** The environment with one variable removed. *)
Definition unsetenv (var : string) (h : host) : host :=
  {| environ := delete var (environ h); now := now h; rand := rand h;
     net_get_me := net_get_me h; net_create_tweet := net_create_tweet h |}.

(** The conditions under which a run gets as far as selecting a message. *)
Definition selects (h : host) (fs : gmap string content) (d : gmap string json)
    (tweets used_tweets : list string) : Prop :=
  missing_vars h = []
  /\ fs !! tweets_json = Some (Document (JObj d))
  /\ as_strings (dict_get d "tweets" (JArr [])) = Some tweets
  /\ tweets <> []
  /\ as_strings (dict_get d "used_tweets" (JArr [])) = Some used_tweets.

(** Events that neither write a file nor touch the network. *)
Definition quiet (e : event) : Prop :=
  match e with
  | Print _ | FileRead _ => True
  | _ => False
  end.

(** The list of strings stored under a key of [tweets.json], as the
    loader hands it to [main]: the field of the JSON object, or the empty
    list when the key is absent. *)
Definition stored (fs : gmap string content) (key : string) : option (list string) :=
  match fs !! tweets_json with
  | Some (Document (JObj d)) => as_strings (dict_get d key (JArr []))
  | _ => None
  end.

(** The script started once per host, each run on the files the run
    before it left. *)
Fixpoint runs (hs : list host) (fs : gmap string content) : gmap string content :=
  match hs with
  | [] => fs
  | h :: later => runs later (files (run h fs).2)
  end.

(** Every string of the JSON document in [tweets.json] can be encoded. *)
Definition clean_file (fs : gmap string content) : Prop :=
  forall v, fs !! tweets_json = Some (Document v) -> encodable v = true.

(** The messages a trace shows as published: the texts of the
    [create_tweet] calls the service accepted, in order. *)
Definition published (evs : list event) : list string :=
  omap (fun e => match e with
                 | CreateTweet text (inl _) => Some text
                 | _ => None
                 end) evs.

(** The messages published by the script started once per host. *)
Fixpoint published_over (hs : list host) (fs : gmap string content) : list string :=
  match hs with
  | [] => []
  | h :: later =>
      published (trace (run h fs).2) ++ published_over later (files (run h fs).2)
  end.

(** A host with its credentials in place whose service accepts every
    call. *)
Definition serving (h : host) : Prop :=
  missing_vars h = []
  /\ (exists username, net_get_me h (make_client h) = inl username)
  /\ (forall text, exists id, net_create_tweet h (make_client h) text = inl id).

(** The network calls among the events of a trace, in order. *)
Definition net_calls (evs : list event) : list event :=
  filter (fun e => is_net e = true) evs.

(** The ways a run of [main] can go, each with its result and final
    state. *)
Inductive run_case (h : host) (fs : gmap string content) : result unit -> state -> Prop :=
  | stops_on_environment :
      missing_vars h <> [] ->
      run_case h fs (Returns tt)
        {| files := fs; trace := start_line h :: missing_report h |}
  | stops_after_bootstrap :
      missing_vars h = [] ->
      fs !! tweets_json = None ->
      run_case h fs (Returns tt)
        {| files := <[tweets_json := Document (JObj sample_data)]> fs;
           trace :=
             [start_line h; FileRead tweets_json;
              Print "Error: tweets.json not found. Creating sample file...";
              FileWrite tweets_json (JObj sample_data);
              Print "Created sample tweets.json. Please edit it with your own tweets!";
              Print "No tweets found in tweets.json"] |}
  | stops_on_malformed text :
      missing_vars h = [] ->
      fs !! tweets_json = Some (Malformed text) ->
      run_case h fs (Returns tt)
        {| files := fs;
           trace :=
             [start_line h; FileRead tweets_json;
              Print "Error: Invalid JSON in tweets.json";
              Print "No tweets found in tweets.json"] |}
  | dies_on_undecodable :
      missing_vars h = [] ->
      fs !! tweets_json = Some Undecodable ->
      run_case h fs (Raises UnicodeDecodeError)
        {| files := fs; trace := [start_line h; FileRead tweets_json] |}
  | dies_on_non_object v :
      missing_vars h = [] ->
      fs !! tweets_json = Some (Document v) ->
      (forall d, v <> JObj d) ->
      run_case h fs (Raises AttributeError)
        {| files := fs; trace := [start_line h; FileRead tweets_json] |}
  | stops_on_empty_pool d :
      missing_vars h = [] ->
      fs !! tweets_json = Some (Document (JObj d)) ->
      as_strings (dict_get d "tweets" (JArr [])) = Some [] ->
      run_case h fs (Returns tt)
        {| files := fs;
           trace := [start_line h; FileRead tweets_json;
                     Print "No tweets found in tweets.json"] |}
  | leaves_the_model d :
      missing_vars h = [] ->
      fs !! tweets_json = Some (Document (JObj d)) ->
      as_strings (dict_get d "tweets" (JArr [])) = None
      \/ (as_strings (dict_get d "tweets" (JArr [])) <> Some []
          /\ as_strings (dict_get d "used_tweets" (JArr [])) = None) ->
      run_case h fs Unmodelled
        {| files := fs; trace := [start_line h; FileRead tweets_json] |}
  | authentication_fails d tweets used_tweets msg :
      selects h fs d tweets used_tweets ->
      net_get_me h (make_client h) = inr msg ->
      run_case h fs (Returns tt)
        {| files := fs;
           trace :=
             ([start_line h; FileRead tweets_json] ++ reset_notice tweets used_tweets)
             ++ [GetMe (inr msg); Print ("Authentication failed: " +:+ msg)] |}
  | posting_fails d tweets used_tweets username msg :
      selects h fs d tweets used_tweets ->
      net_get_me h (make_client h) = inl username ->
      net_create_tweet h (make_client h) (drawn h (candidates tweets used_tweets))
        = inr msg ->
      run_case h fs (Returns tt)
        {| files := fs;
           trace :=
             ([start_line h; FileRead tweets_json] ++ reset_notice tweets used_tweets)
             ++ [GetMe (inl username); Print ("Authenticated as: @" +:+ username);
                 CreateTweet (drawn h (candidates tweets used_tweets)) (inr msg);
                 Print ("Error posting tweet: " +:+ msg);
                 Print "Failed to post tweet."] |}
  | posts d tweets used_tweets username id :
      selects h fs d tweets used_tweets ->
      net_get_me h (make_client h) = inl username ->
      net_create_tweet h (make_client h) (drawn h (candidates tweets used_tweets))
        = inl id ->
      encodable
        (JObj (<["used_tweets" :=
                   of_strings (carried_used tweets used_tweets
                               ++ [drawn h (candidates tweets used_tweets)])]> d)) = true ->
      run_case h fs (Returns tt)
        {| files :=
             <[tweets_json :=
                 Document (JObj (<["used_tweets" :=
                                     of_strings (carried_used tweets used_tweets
                                                 ++ [drawn h (candidates tweets used_tweets)])]>
                                   d))]> fs;
           trace :=
             ([start_line h; FileRead tweets_json] ++ reset_notice tweets used_tweets)
             ++ [GetMe (inl username); Print ("Authenticated as: @" +:+ username);
                 CreateTweet (drawn h (candidates tweets used_tweets)) (inl id);
                 Print ("Tweet posted successfully: "
                        +:+ drawn h (candidates tweets used_tweets));
                 Print ("Tweet ID: " +:+ id);
                 FileRead tweets_json;
                 FileWrite tweets_json
                   (JObj (<["used_tweets" :=
                              of_strings (carried_used tweets used_tweets
                                          ++ [drawn h (candidates tweets used_tweets)])]>
                            d));
                 Print "Tweet posted and marked as used."] |}
  | stops_on_fragment data :
      missing_vars h = [] ->
      fs !! tweets_json = Some (Fragment data) ->
      run_case h fs (Returns tt)
        {| files := fs;
           trace :=
             [start_line h; FileRead tweets_json;
              Print "Error: Invalid JSON in tweets.json";
              Print "No tweets found in tweets.json"] |}
  | dies_on_missing_directory :
      missing_vars h = [] ->
      fs !! tweets_json = Some NoDirectory ->
      run_case h fs (Raises FileNotFoundError)
        {| files := fs;
           trace :=
             [start_line h; FileRead tweets_json;
              Print "Error: tweets.json not found. Creating sample file..."] |}
  | loses_the_file d tweets used_tweets username id :
      selects h fs d tweets used_tweets ->
      net_get_me h (make_client h) = inl username ->
      net_create_tweet h (make_client h) (drawn h (candidates tweets used_tweets))
        = inl id ->
      encodable
        (JObj (<["used_tweets" :=
                   of_strings (carried_used tweets used_tweets
                               ++ [drawn h (candidates tweets used_tweets)])]> d)) = false ->
      run_case h fs (Raises UnicodeEncodeError)
        {| files :=
             <[tweets_json :=
                 Fragment (JObj (<["used_tweets" :=
                                     of_strings (carried_used tweets used_tweets
                                                 ++ [drawn h (candidates tweets used_tweets)])]>
                                   d))]> fs;
           trace :=
             ([start_line h; FileRead tweets_json] ++ reset_notice tweets used_tweets)
             ++ [GetMe (inl username); Print ("Authenticated as: @" +:+ username);
                 CreateTweet (drawn h (candidates tweets used_tweets)) (inl id);
                 Print ("Tweet posted successfully: "
                        +:+ drawn h (candidates tweets used_tweets));
                 Print ("Tweet ID: " +:+ id);
                 FileRead tweets_json;
                 FileCut tweets_json
                   (JObj (<["used_tweets" :=
                              of_strings (carried_used tweets used_tweets
                                          ++ [drawn h (candidates tweets used_tweets)])]>
                            d))] |}.

(** The file has no top-level value the writer cannot assign into. *)
Definition assignable (c : option content) : Prop :=
  forall v, c = Some (Document v) -> exists d, v = JObj d.

(** The object the writer starts from. *)
Definition base_object (c : option content) : gmap string json :=
  match c with
  | Some (Document (JObj d)) => d
  | _ => empty_data
  end.

(** The host with another random number. *)
Definition with_rand (n : nat) (h : host) : host :=
  {| environ := environ h; now := now h; rand := n;
     net_get_me := net_get_me h; net_create_tweet := net_create_tweet h |}.

(** A credential that is set and not empty. *)
Definition present (x : option string) : Prop :=
  exists c s, x = Some (String c s).

(** A host whose service turns the run down: [get_me] fails, or every
    [create_tweet] does. *)
Definition refusing (h : host) : Prop :=
  (exists msg, net_get_me h (make_client h) = inr msg)
  \/ (forall text, exists msg, net_create_tweet h (make_client h) text = inr msg).

(** ** Concrete hosts and files *)

Definition bare_host (env : gmap string string) : host :=
  {| environ := env; now := "2024-01-01 09:00:00"; rand := 0;
     net_get_me := fun _ => inl "tessa";
     net_create_tweet := fun _ _ => inl "1" |}.

Definition blank_key_host : host := bare_host (<["TWITTER_API_KEY" := EmptyString]> ∅).

Definition demo_env : gmap string string :=
  list_to_map ((fun var => (var, "secret")) <$> required_vars).

Definition demo_host : host := bare_host demo_env.

(** A host whose service rejects the credentials. *)
Definition rejecting_host : host :=
  {| environ := demo_env; now := "2024-01-01 09:00:00"; rand := 0;
     net_get_me := fun _ => inr "401 Unauthorized";
     net_create_tweet := fun _ _ => inl "1" |}.

Definition demo_data : gmap string json :=
  <["used_tweets" := of_strings ["A"]]> (<["tweets" := of_strings ["A"; "B"]]> ∅).

Definition demo_files : gmap string content :=
  {[ tweets_json := Document (JObj demo_data) ]}.

Definition broken_files : gmap string content :=
  {[ tweets_json := Malformed "{tweets: " ]}.

(** The string of one surrogate, U+D83D, as [json.load] gives it for the
    unpaired escape [\ud83d]. *)
Definition lone_surrogate : string :=
  String (Ascii.ascii_of_nat 237)
    (String (Ascii.ascii_of_nat 160) (String (Ascii.ascii_of_nat 189) EmptyString)).





Definition garbled_files : gmap string content :=
  {[ tweets_json := Undecodable ]}.

Definition annotated_files : gmap string content :=
  {[ tweets_json := Document (JObj (<["owner" := JStr "tessa"]> demo_data)) ]}.

Definition exhausted_data : gmap string json :=
  <["used_tweets" := of_strings ["A"; "B"]]> (<["tweets" := of_strings ["A"; "B"]]> ∅).

Definition exhausted_files : gmap string content :=
  {[ tweets_json := Document (JObj exhausted_data) ]}.

Definition pool_only_data : gmap string json := <["tweets" := of_strings ["A"]]> ∅.

Definition pool_only_files : gmap string content :=
  {[ tweets_json := Document (JObj pool_only_data) ]}.

Definition array_files : gmap string content :=
  {[ tweets_json := Document (JArr [JStr "A"; JStr "B"]) ]}.

Definition fresh_data : gmap string json :=
  <["used_tweets" := of_strings []]> (<["tweets" := of_strings ["A"; "B"]]> ∅).

Definition fresh_files : gmap string content :=
  {[ tweets_json := Document (JObj fresh_data) ]}.

(** A serving host that draws with the given random number. *)
Definition drawing_host (n : nat) : host :=
  {| environ := demo_env; now := "2024-01-01 09:00:00"; rand := n;
     net_get_me := fun _ => inl "tessa";
     net_create_tweet := fun _ _ => inl "1" |}.

Definition poolless_files : gmap string content :=
  {[ tweets_json := Document (JObj (<["used_tweets" := JNum "7"]> ∅)) ]}.

(** ** Stepping through the monad *)

Lemma extend_extend st evs evs' : extend (extend st evs) evs' = extend st (evs ++ evs').
Proof. unfold extend; simpl. by rewrite <- app_assoc. Qed.

Lemma extend_nil st : extend st [] = st.
Proof. destruct st; unfold extend; simpl. by rewrite app_nil_r. Qed.

Lemma bind_eq {A B} (m : M A) (k : A -> M B) st :
  bind m k st =
  match m st with
  | (Returns a, st') => k a st'
  | (Raises e, st') => (Raises e, st')
  | (Unmodelled, st') => (Unmodelled, st')
  end.
Proof. reflexivity. Qed.

Lemma bind_returns {A B} (m : M A) (k : A -> M B) st a st' :
  m st = (Returns a, st') -> bind m k st = k a st'.
Proof. intros H. by rewrite bind_eq, H. Qed.

Lemma bind_raises {A B} (m : M A) (k : A -> M B) st e st' :
  m st = (Raises e, st') -> bind m k st = (Raises e, st').
Proof. intros H. by rewrite bind_eq, H. Qed.

Lemma emit_eq e st : emit e st = (Returns tt, extend st [e]).
Proof. reflexivity. Qed.

Lemma print_eq line st : print line st = (Returns tt, extend st [Print line]).
Proof. reflexivity. Qed.

Ltac step_print := rewrite (bind_returns _ _ _ _ _ (print_eq _ _)).
Ltac step_with H :=
  first [ rewrite (bind_returns _ _ _ _ _ H) | rewrite (bind_raises _ _ _ _ _ H) ].
Ltac flatten_trace :=
  unfold extend; cbn [files trace]; rewrite <- ?app_assoc; cbn [app].

Lemma for_each_print (f : string -> string) (l : list string) st :
  for_each l (fun x => print (f x)) st = (Returns tt, extend st (Print ∘ f <$> l)).
Proof.
  revert st. induction l as [|x l IH]; intros st; simpl.
  - unfold ret. by rewrite extend_nil.
  - rewrite bind_eq, print_eq, IH, extend_extend. reflexivity.
Qed.

Lemma read_json_missing filename st :
  files st !! filename = None ->
  read_json filename st = (Raises FileNotFoundError, extend st [FileRead filename]).
Proof. intros H. unfold read_json. by rewrite H. Qed.

Lemma read_json_undecodable filename st :
  files st !! filename = Some Undecodable ->
  read_json filename st = (Raises UnicodeDecodeError, extend st [FileRead filename]).
Proof. intros H. unfold read_json. by rewrite H. Qed.

Lemma read_json_no_directory filename st :
  files st !! filename = Some NoDirectory ->
  read_json filename st = (Raises FileNotFoundError, extend st [FileRead filename]).
Proof. intros H. unfold read_json. by rewrite H. Qed.

Lemma read_json_fragment filename data st :
  files st !! filename = Some (Fragment data) ->
  read_json filename st = (Raises JSONDecodeError, extend st [FileRead filename]).
Proof. intros H. unfold read_json. by rewrite H. Qed.

Lemma read_json_malformed filename text st :
  files st !! filename = Some (Malformed text) ->
  read_json filename st = (Raises JSONDecodeError, extend st [FileRead filename]).
Proof. intros H. unfold read_json. by rewrite H. Qed.

Lemma read_json_document filename v st :
  files st !! filename = Some (Document v) ->
  read_json filename st = (Returns v, extend st [FileRead filename]).
Proof. intros H. unfold read_json. by rewrite H. Qed.

Lemma write_json_opened filename data st :
  creatable (files st) filename ->
  write_json filename data st =
    if encodable data then
      (Returns tt,
       {| files := <[filename := Document data]> (files st);
          trace := trace st ++ [FileWrite filename data] |})
    else
      (Raises UnicodeEncodeError,
       {| files := <[filename := Fragment data]> (files st);
          trace := trace st ++ [FileCut filename data] |}).
Proof.
  intros [Hname Hdir]. unfold write_json. rewrite bool_decide_eq_false_2 by done.
  by destruct (files st !! filename) as [[]|].
Qed.

Lemma write_json_eq filename data st :
  creatable (files st) filename ->
  encodable data = true ->
  write_json filename data st =
  (Returns tt, {| files := <[filename := Document data]> (files st);
                  trace := trace st ++ [FileWrite filename data] |}).
Proof. intros Hpath Hdata. by rewrite write_json_opened, Hdata. Qed.

Lemma write_json_cut filename data st :
  creatable (files st) filename ->
  encodable data = false ->
  write_json filename data st =
  (Raises UnicodeEncodeError,
   {| files := <[filename := Fragment data]> (files st);
      trace := trace st ++ [FileCut filename data] |}).
Proof. intros Hpath Hdata. by rewrite write_json_opened, Hdata. Qed.

Lemma write_json_blocked filename data st :
  ~ creatable (files st) filename ->
  write_json filename data st = (Raises FileNotFoundError, st).
Proof.
  intros Hpath. unfold write_json. case_bool_decide; [done|].
  destruct (files st !! filename) as [[]|] eqn:Hc; try done;
    destruct Hpath; split; congruence.
Qed.

(** ** What can be encoded *)

Lemma encodable_obj (m : gmap string json) :
  encodable (JObj m) = true
  <-> forall key v, m !! key = Some v -> clean key /\ encodable v = true.
Proof.
  change (encodable (JObj m))
    with (map_fold (fun key v' rest => negb (has_surrogate key) && encodable v' && rest)
            true m).
  apply (map_fold_weak_ind
           (fun (b : bool) (m : gmap string json) =>
              b = true <-> forall key v, m !! key = Some v -> clean key /\ encodable v = true)).
  - split; [|done]. intros _ key v Hk. by rewrite lookup_empty in Hk.
  - intros key v m0 r Hfree IH. rewrite !andb_true_iff, negb_true_iff, IH. split.
    + intros [[Hkey Hv] Hrest] key' v' Hk'.
      destruct (decide (key = key')) as [<-|Hne].
      * rewrite lookup_insert_eq in Hk'. by injection Hk' as <-.
      * rewrite lookup_insert_ne in Hk' by done. by apply Hrest.
    + intros Hall. split; [apply (Hall key v), lookup_insert_eq|].
      intros key' v' Hk'. apply Hall. rewrite lookup_insert_ne; [done|].
      intros <-. congruence.
Qed.

Lemma encodable_of_strings l : encodable (of_strings l) = true <-> Forall clean l.
Proof.
  unfold of_strings. cbn [encodable]. induction l as [|x l IH]; cbn [fmap list_fmap forallb].
  - split; [constructor|done].
  - rewrite andb_true_iff, Forall_cons, <- IH. cbn [encodable]. unfold clean.
    by rewrite negb_true_iff.
Qed.

Lemma as_strings_inv v l : as_strings v = Some l -> v = of_strings l.
Proof.
  destruct v as [| | | |items|]; try discriminate. cbn [as_strings]. intros H.
  apply mapM_Some in H. unfold of_strings. f_equal.
  induction H as [|x s items l Hx _ IH]; [done|].
  destruct x; try discriminate. injection Hx as <-. cbn. by rewrite IH.
Qed.

Lemma encodable_insert (d : gmap string json) key v :
  encodable (JObj d) = true -> clean key -> encodable v = true ->
  encodable (JObj (<[key := v]> d)) = true.
Proof.
  rewrite !encodable_obj. intros Hd Hkey Hv key' v' Hk'.
  destruct (decide (key = key')) as [<-|Hne].
  - rewrite lookup_insert_eq in Hk'. by injection Hk' as <-.
  - rewrite lookup_insert_ne in Hk' by done. by apply Hd.
Qed.

Lemma encodable_stored (d : gmap string json) key l :
  encodable (JObj d) = true ->
  as_strings (dict_get d key (JArr [])) = Some l ->
  Forall clean l.
Proof.
  intros Hd Hl. apply encodable_of_strings. rewrite <- (as_strings_inv _ _ Hl).
  unfold dict_get. destruct (d !! key) as [v|] eqn:Hk; [|done].
  by apply (proj1 (encodable_obj d) Hd key v).
Qed.

(** ** The loader *)

Lemma sample_data_encodable : encodable (JObj sample_data) = true.
Proof. vm_compute. reflexivity. Qed.

Lemma create_sample_tweets_file_eq filename st :
  creatable (files st) filename ->
  create_sample_tweets_file filename st =
    (Returns tt,
     {| files := <[filename := Document (JObj sample_data)]> (files st);
        trace := trace st ++
          [FileWrite filename (JObj sample_data);
           Print ("Created sample " +:+ filename +:+ ". Please edit it with your own tweets!")] |}).
Proof.
  intros Hpath. unfold create_sample_tweets_file.
  step_with (write_json_eq filename (JObj sample_data) st Hpath sample_data_encodable).
  rewrite print_eq. flatten_trace. reflexivity.
Qed.

Lemma create_sample_tweets_file_blocked filename st :
  ~ creatable (files st) filename ->
  create_sample_tweets_file filename st = (Raises FileNotFoundError, st).
Proof.
  intros Hpath. unfold create_sample_tweets_file.
  by step_with (write_json_blocked filename (JObj sample_data) st Hpath).
Qed.

Lemma load_tweets_missing filename st :
  files st !! filename = None ->
  filename <> EmptyString ->
  load_tweets filename st =
    (Returns (JArr [], JArr []),
     {| files := <[filename := Document (JObj sample_data)]> (files st);
        trace := trace st ++
          [FileRead filename;
           Print ("Error: " +:+ filename +:+ " not found. Creating sample file...");
           FileWrite filename (JObj sample_data);
           Print ("Created sample " +:+ filename +:+ ". Please edit it with your own tweets!")] |}).
Proof.
  intros Hmissing Hname. unfold load_tweets, try_except.
  rewrite (bind_raises _ _ _ _ _ (read_json_missing _ _ Hmissing)).
  step_print.
  match goal with |- bind _ _ ?st1 = _ =>
    assert (creatable (files st1) filename) as Hpath
      by (split; [done|]; cbn [extend files]; by rewrite Hmissing);
    rewrite (bind_returns _ _ _ _ _ (create_sample_tweets_file_eq filename st1 Hpath))
  end.
  unfold ret. flatten_trace. reflexivity.
Qed.

(** The loader where nothing can be created: the handler's attempt to
    write the sample file raises in its turn. *)
Lemma load_tweets_blocked filename st :
  files st !! filename = None \/ files st !! filename = Some NoDirectory ->
  ~ creatable (files st) filename ->
  load_tweets filename st =
    (Raises FileNotFoundError,
     extend st [FileRead filename;
                Print ("Error: " +:+ filename +:+ " not found. Creating sample file...")]).
Proof.
  intros Hmissing Hpath. unfold load_tweets, try_except.
  assert (read_json filename st
          = (Raises FileNotFoundError, extend st [FileRead filename])) as Hread.
  { destruct Hmissing as [H|H];
      [by apply read_json_missing|by apply read_json_no_directory]. }
  rewrite (bind_raises _ _ _ _ _ Hread). step_print.
  match goal with |- bind _ _ ?st1 = _ =>
    rewrite (bind_raises _ _ _ _ _ (create_sample_tweets_file_blocked filename st1 Hpath))
  end.
  by rewrite extend_extend.
Qed.

(** C6, where a file can be created (file bootstrap): on a path other
    than the empty one that holds no file and allows one to be created,
    [load_tweets] reads once, writes the sample document there (the eight
    fixed messages as [tweets] and an empty [used_tweets], nothing else)
    and returns two empty lists; nothing is read after the write. *)
Theorem load_tweets_bootstrap (filename : string) (st : state)
    (Hmissing : files st !! filename = None)
    (Hname : filename <> EmptyString) :
  load_tweets filename st =
    (Returns (JArr [], JArr []),
     {| files := <[filename := Document (JObj sample_data)]> (files st);
        trace := trace st ++
          [FileRead filename;
           Print ("Error: " +:+ filename +:+ " not found. Creating sample file...");
           FileWrite filename (JObj sample_data);
           Print ("Created sample " +:+ filename +:+ ". Please edit it with your own tweets!")] |})
  /\ field (JObj sample_data) "tweets" = Some (of_strings sample_tweets)
  /\ length sample_tweets = 8
  /\ field (JObj sample_data) "used_tweets" = Some (JArr [])
  /\ dom sample_data = {["tweets"; "used_tweets"]}.
Proof.
  split; [by apply load_tweets_missing|]. repeat split; reflexivity.
Qed.

Lemma load_tweets_bootstrap_witness :
  (∅ : gmap string content) !! "pool.json" = None /\
  "pool.json" <> EmptyString /\
  (load_tweets "pool.json" {| files := ∅; trace := [] |}).1 = Returns (JArr [], JArr []).
Proof.
  split; [reflexivity|]. split; [discriminate|].
  destruct (load_tweets_bootstrap "pool.json" {| files := ∅; trace := [] |}) as [H _];
    [reflexivity|discriminate|].
  rewrite H. reflexivity.
Defined.

(** C6 as stated, for every nonexistent path, fails on the empty path
    (and under a directory that does not exist): opening it for writing
    raises [FileNotFoundError] inside the handler, so no file is created
    and the loader returns nothing. *)
Lemma empty_path_is_not_bootstrapped :
  (∅ : gmap string content) !! EmptyString = None
  /\ load_tweets EmptyString {| files := ∅; trace := [] |}
     = (Raises FileNotFoundError,
        {| files := ∅;
           trace := [FileRead EmptyString;
                     Print "Error:  not found. Creating sample file..."] |})
  /\ ~ (exists st',
          load_tweets EmptyString {| files := ∅; trace := [] |}
          = (Returns (JArr [], JArr []), st'))
  /\ load_tweets "drafts/pool.json"
       {| files := {[ "drafts/pool.json" := NoDirectory ]}; trace := [] |}
     = (Raises FileNotFoundError,
        {| files := {[ "drafts/pool.json" := NoDirectory ]};
           trace := [FileRead "drafts/pool.json";
                     Print "Error: drafts/pool.json not found. Creating sample file..."] |}).
Proof.
  assert (load_tweets EmptyString {| files := ∅; trace := [] |}
          = (Raises FileNotFoundError,
             {| files := ∅;
                trace := [FileRead EmptyString;
                          Print "Error:  not found. Creating sample file..."] |})) as Hload
    by reflexivity.
  split; [reflexivity|]. split; [exact Hload|]. split.
  - intros [st' H]. rewrite Hload in H. discriminate H.
  - reflexivity.
Qed.

Lemma load_tweets_malformed filename text st :
  files st !! filename = Some (Malformed text) ->
  load_tweets filename st =
    (Returns (JArr [], JArr []),
     extend st [FileRead filename; Print ("Error: Invalid JSON in " +:+ filename)]).
Proof.
  intros H. unfold load_tweets, try_except.
  rewrite (bind_raises _ _ _ _ _ (read_json_malformed _ _ _ H)).
  cbv [bind print emit ret extend]. cbn [files trace].
  rewrite <- !app_assoc. reflexivity.
Qed.

Lemma load_tweets_fragment filename data st :
  files st !! filename = Some (Fragment data) ->
  load_tweets filename st =
    (Returns (JArr [], JArr []),
     extend st [FileRead filename; Print ("Error: Invalid JSON in " +:+ filename)]).
Proof.
  intros H. unfold load_tweets, try_except.
  rewrite (bind_raises _ _ _ _ _ (read_json_fragment _ _ _ H)).
  cbv [bind print emit ret extend]. cbn [files trace].
  rewrite <- !app_assoc. reflexivity.
Qed.

Lemma load_tweets_dict filename d st :
  files st !! filename = Some (Document (JObj d)) ->
  load_tweets filename st =
    (Returns (dict_get d "tweets" (JArr []), dict_get d "used_tweets" (JArr [])),
     extend st [FileRead filename]).
Proof.
  intros H. unfold load_tweets, try_except.
  by rewrite (bind_returns _ _ _ _ _ (read_json_document _ _ _ H)).
Qed.

Lemma load_tweets_undecodable filename st :
  files st !! filename = Some Undecodable ->
  load_tweets filename st = (Raises UnicodeDecodeError, extend st [FileRead filename]).
Proof.
  intros H. unfold load_tweets, try_except.
  by rewrite (bind_raises _ _ _ _ _ (read_json_undecodable _ _ H)).
Qed.

Lemma load_tweets_not_dict filename v st :
  files st !! filename = Some (Document v) ->
  (forall d, v <> JObj d) ->
  load_tweets filename st = (Raises AttributeError, extend st [FileRead filename]).
Proof.
  intros H Hv. unfold load_tweets, try_except.
  rewrite (bind_returns _ _ _ _ _ (read_json_document _ _ _ H)).
  destruct v; try reflexivity. by destruct (Hv fields).
Qed.

(** ** The state writer *)

(** The writer up to its write: the object it read, or the base object
    when the re-read failed, with [used_tweets] set. *)
Lemma save_used_tweets_read used_tweets filename st :
  (forall v, files st !! filename = Some (Document v) -> exists d, v = JObj d) ->
  save_used_tweets used_tweets filename st =
    write_json filename
      (JObj (<["used_tweets" := of_strings used_tweets]>
               (base_object (files st !! filename))))
      (extend st [FileRead filename]).
Proof.
  intros Hobj. unfold save_used_tweets.
  rewrite (bind_returns _ _ _ (JObj (base_object (files st !! filename)))
             (extend st [FileRead filename])); [done|].
  unfold try_except, read_json, base_object.
  destruct (files st !! filename) as [[| | | |v]|]; try reflexivity.
  by destruct (Hobj v eq_refl) as [d ->].
Qed.

Lemma save_used_tweets_dict used_tweets filename d st :
  files st !! filename = Some (Document (JObj d)) ->
  filename <> EmptyString ->
  encodable (JObj (<["used_tweets" := of_strings used_tweets]> d)) = true ->
  save_used_tweets used_tweets filename st =
    (Returns tt,
     {| files := <[filename :=
                    Document (JObj (<["used_tweets" := of_strings used_tweets]> d))]> (files st);
        trace := trace st ++
          [FileRead filename;
           FileWrite filename (JObj (<["used_tweets" := of_strings used_tweets]> d))] |}).
Proof.
  intros H Hname Hdata. rewrite save_used_tweets_read.
  - rewrite H. cbn [base_object]. rewrite write_json_eq; [|split|done].
    + flatten_trace. reflexivity.
    + done.
    + cbn [extend files]. by rewrite H.
  - intros v Hv. rewrite H in Hv. injection Hv as <-. by eexists.
Qed.

Lemma save_used_tweets_dict_cut used_tweets filename d st :
  files st !! filename = Some (Document (JObj d)) ->
  filename <> EmptyString ->
  encodable (JObj (<["used_tweets" := of_strings used_tweets]> d)) = false ->
  save_used_tweets used_tweets filename st =
    (Raises UnicodeEncodeError,
     {| files := <[filename :=
                    Fragment (JObj (<["used_tweets" := of_strings used_tweets]> d))]> (files st);
        trace := trace st ++
          [FileRead filename;
           FileCut filename (JObj (<["used_tweets" := of_strings used_tweets]> d))] |}).
Proof.
  intros H Hname Hdata. rewrite save_used_tweets_read.
  - rewrite H. cbn [base_object]. rewrite write_json_cut; [|split|done].
    + flatten_trace. reflexivity.
    + done.
    + cbn [extend files]. by rewrite H.
  - intros v Hv. rewrite H in Hv. injection Hv as <-. by eexists.
Qed.

Lemma save_used_tweets_fallback used_tweets filename st :
  read_fails (files st !! filename) ->
  creatable (files st) filename ->
  Forall clean used_tweets ->
  save_used_tweets used_tweets filename st =
    (Returns tt,
     {| files := <[filename :=
                    Document (JObj (<["used_tweets" := of_strings used_tweets]> empty_data))]>
                   (files st);
        trace := trace st ++
          [FileRead filename;
           FileWrite filename (JObj (<["used_tweets" := of_strings used_tweets]> empty_data))] |}).
Proof.
  intros H Hpath Hlist. rewrite save_used_tweets_read.
  - assert (base_object (files st !! filename) = empty_data) as ->.
    { unfold base_object. by destruct (files st !! filename) as [[| | | |v]|]. }
    rewrite write_json_eq; [|done|].
    + flatten_trace. reflexivity.
    + apply encodable_insert; [reflexivity|reflexivity|by apply encodable_of_strings].
  - intros v Hv. rewrite Hv in H. destruct H.
Qed.

Lemma save_used_tweets_not_dict used_tweets filename v st :
  files st !! filename = Some (Document v) ->
  (forall d, v <> JObj d) ->
  save_used_tweets used_tweets filename st =
    (Raises TypeError, extend st [FileRead filename]).
Proof.
  intros H Hv. unfold save_used_tweets.
  rewrite (bind_returns _ _ _ v (extend st [FileRead filename])).
  - destruct v; try reflexivity. by destruct (Hv fields).
  - unfold try_except. by rewrite (read_json_document _ _ _ H).
Qed.





(** ** The selector *)

Lemma elem_of_available_tweets tweets used_tweets t :
  t ∈ available_tweets tweets used_tweets <-> t ∈ tweets /\ t ∉ used_tweets.
Proof. unfold available_tweets. rewrite list_elem_of_filter. tauto. Qed.

Lemma random_choice_nonempty h (seq : list string) st :
  seq <> [] ->
  exists x, seq !! (rand h `mod` length seq) = Some x
            /\ x ∈ seq
            /\ random_choice h seq st = (Returns x, st).
Proof.
  intros Hseq.
  assert (rand h `mod` length seq < length seq) as Hlt.
  { apply Nat.mod_upper_bound. destruct seq; [done|simpl; lia]. }
  destruct (lookup_lt_is_Some_2 _ _ Hlt) as [x Hx].
  exists x. split; [done|]. split; [by eapply list_elem_of_lookup_2|].
  unfold random_choice. destruct seq; [done|]. by rewrite Hx.
Qed.

Lemma random_choice_elem h (seq : list string) st x st' :
  random_choice h seq st = (Returns x, st') -> x ∈ seq /\ st' = st.
Proof.
  unfold random_choice. destruct seq as [|y seq]; [discriminate|].
  destruct (_ !! _) as [z|] eqn:Hz; [|discriminate].
  intros [= <- <-]. split; [by eapply list_elem_of_lookup_2|done].
Qed.

Lemma selector_eq h tweets used_tweets st :
  selector h tweets used_tweets st =
    bind (random_choice h (candidates tweets used_tweets))
         (fun selected_tweet => ret (selected_tweet, carried_used tweets used_tweets))
         (extend st (reset_notice tweets used_tweets)).
Proof.
  unfold selector, candidates, carried_used, reset_notice.
  destruct (available_tweets tweets used_tweets) as [|a l].
  - reflexivity.
  - by rewrite extend_nil.
Qed.

Lemma candidates_nonempty tweets used_tweets :
  tweets <> [] -> candidates tweets used_tweets <> [].
Proof. unfold candidates. by destruct (available_tweets _ _). Qed.

Lemma selector_total h tweets used_tweets st :
  tweets <> [] ->
  selector h tweets used_tweets st =
    (Returns (drawn h (candidates tweets used_tweets), carried_used tweets used_tweets),
     extend st (reset_notice tweets used_tweets))
  /\ drawn h (candidates tweets used_tweets) ∈ candidates tweets used_tweets.
Proof.
  intros Htweets. rewrite selector_eq.
  destruct (random_choice_nonempty h _ (extend st (reset_notice tweets used_tweets))
              (candidates_nonempty _ used_tweets Htweets)) as (x & Hx & Hin & Hrun).
  rewrite (bind_returns _ _ _ _ _ Hrun). unfold drawn. rewrite Hx. done.
Qed.

Lemma drawn_candidate h tweets used_tweets :
  tweets <> [] ->
  drawn h (candidates tweets used_tweets) ∈ candidates tweets used_tweets.
Proof.
  intros Hne.
  by destruct (selector_total h tweets used_tweets {| files := ∅; trace := [] |} Hne).
Qed.

Lemma candidates_in_pool tweets used_tweets x :
  x ∈ candidates tweets used_tweets -> x ∈ tweets.
Proof.
  unfold candidates.
  destruct (available_tweets tweets used_tweets) as [|a l] eqn:Hav; [done|].
  rewrite <- Hav. intros Hin. by apply elem_of_available_tweets in Hin as [? _].
Qed.

Lemma carried_used_clean tweets used_tweets :
  Forall clean used_tweets -> Forall clean (carried_used tweets used_tweets).
Proof.
  intros H. unfold carried_used. destruct (available_tweets tweets used_tweets); [constructor|done].
Qed.

(** What a run saves can be encoded when what it loaded can. *)
Lemma grown_data_encodable h (d : gmap string json) tweets used_tweets :
  encodable (JObj d) = true ->
  as_strings (dict_get d "tweets" (JArr [])) = Some tweets ->
  tweets <> [] ->
  as_strings (dict_get d "used_tweets" (JArr [])) = Some used_tweets ->
  encodable
    (JObj (<["used_tweets" :=
               of_strings (carried_used tweets used_tweets
                           ++ [drawn h (candidates tweets used_tweets)])]> d)) = true.
Proof.
  intros Hd Htweets Hne Hused.
  apply encodable_insert; [done|reflexivity|]. apply encodable_of_strings.
  apply Forall_app. split.
  - apply carried_used_clean. by apply (encodable_stored d "used_tweets").
  - apply Forall_singleton.
    pose proof (encodable_stored d "tweets" tweets Hd Htweets) as Hclean.
    rewrite Forall_forall in Hclean. apply Hclean.
    eapply candidates_in_pool, drawn_candidate, Hne.
Qed.

(** C1 (the available pool): the available pool holds exactly the pool
    elements that are not, as strings, in the used list; when it is empty
    the block prints its notice, carries an empty used list and draws from
    the whole pool, otherwise it carries the used list on and draws from the
    available pool; the element drawn is in the pool drawn from, and on a
    pool that is not empty an element is drawn. *)
Theorem selector_draws_from_available (h : host) (tweets used_tweets : list string)
    (st : state) :
  (forall t, t ∈ available_tweets tweets used_tweets <-> t ∈ tweets /\ t ∉ used_tweets)
  /\ (forall selected used' st',
        selector h tweets used_tweets st = (Returns (selected, used'), st') ->
        match available_tweets tweets used_tweets with
        | [] => used' = [] /\ selected ∈ tweets
                /\ st' = extend st [Print "All tweets have been used. Resetting..."]
        | available => used' = used_tweets /\ selected ∈ available /\ st' = st
        end)
  /\ (tweets <> [] ->
      exists selected used' st',
        selector h tweets used_tweets st = (Returns (selected, used'), st')).
Proof.
  split; [apply elem_of_available_tweets|]. split.
  - intros selected used' st'. rewrite selector_eq, bind_eq.
    destruct (random_choice _ _ _) as [[x| |] st1] eqn:Hc; try discriminate.
    apply random_choice_elem in Hc as [Hin ->].
    unfold ret. intros [= <- <- <-].
    unfold candidates, carried_used, reset_notice in *.
    destruct (available_tweets tweets used_tweets); [done|].
    by rewrite extend_nil.
  - intros Htweets. destruct (selector_total h tweets used_tweets st Htweets) as [H _].
    eauto.
Qed.

Lemma selector_draws_from_available_witness :
  ["A"; "B"] <> ([] : list string) /\
  exists selected used' st',
    selector {| environ := ∅; now := "noon"; rand := 3;
                net_get_me := fun _ => inl "me";
                net_create_tweet := fun _ _ => inl "1" |}
             ["A"; "B"] ["A"; "B"] {| files := ∅; trace := [] |}
    = (Returns (selected, used'), st').
Proof.
  split; [discriminate|].
  apply selector_draws_from_available. discriminate.
Defined.

(** ** Runs of [main] *)

Lemma run_missing_vars h fs :
  missing_vars h <> [] ->
  run h fs = (Returns tt, {| files := fs; trace := start_line h :: missing_report h |}).
Proof.
  intros Hmiss. unfold run, main. step_print.
  destruct (missing_vars h) as [|var vars] eqn:Hvars; [done|].
  step_print. rewrite <- Hvars.
  step_with (for_each_print (fun var => "  - " +:+ var) (missing_vars h)
               (extend (extend {| files := fs; trace := [] |} [start_line h])
                  [Print "Error: Missing environment variables:"])).
  rewrite print_eq. unfold missing_report, start_line. flatten_trace. reflexivity.
Qed.

Lemma elem_of_missing_vars h var :
  var ∈ missing_vars h <-> var ∈ required_vars /\ py_not (os_getenv h var) = true.
Proof.
  unfold missing_vars. rewrite list_elem_of_filter.
  destruct (py_not _); simpl; intuition congruence.
Qed.

Lemma missing_report_prints h : Forall (fun e => is_io e = false) (missing_report h).
Proof.
  unfold missing_report. constructor; [done|].
  apply Forall_app. split.
  - apply Forall_fmap, Forall_forall. done.
  - by constructor.
Qed.

Lemma missing_report_names h var :
  var ∈ missing_vars h -> Print ("  - " +:+ var) ∈ missing_report h.
Proof.
  intros Hvar. unfold missing_report. apply list_elem_of_further, elem_of_app. left.
  apply (list_elem_of_fmap_2 (Print ∘ (fun var => "  - " +:+ var))) in Hvar. done.
Qed.

(** C7 (missing credentials stop the run): when a required variable is
    absent from the environment, the run returns after printing, among
    other lines, one line naming each absent required variable; the file
    system is the one it started with and the trace holds printed lines
    only: no file was read or written and no network call was made. *)
Theorem main_stops_on_missing_variable (h : host) (fs : gmap string content)
    (Habsent : exists var, var ∈ required_vars /\ os_getenv h var = None) :
  exists st',
    run h fs = (Returns tt, st')
    /\ files st' = fs
    /\ (forall var, var ∈ required_vars -> os_getenv h var = None ->
          Print ("  - " +:+ var) ∈ trace st')
    /\ Forall (fun e => is_io e = false) (trace st').
Proof.
  destruct Habsent as (var0 & Hreq0 & Hnone0).
  assert (missing_vars h <> []) as Hmiss.
  { intros Hnil. assert (var0 ∈ missing_vars h) as Hin.
    { apply elem_of_missing_vars. by rewrite Hnone0. }
    rewrite Hnil in Hin. by apply elem_of_nil in Hin. }
  eexists. split; [by apply run_missing_vars|]. cbn [files trace].
  split; [done|]. split.
  - intros var Hreq Hnone. apply list_elem_of_further, missing_report_names.
    apply elem_of_missing_vars. by rewrite Hnone.
  - constructor; [done|]. apply missing_report_prints.
Qed.

Lemma main_stops_on_missing_variable_witness :
  (exists var, var ∈ required_vars /\ os_getenv (bare_host ∅) var = None) /\
  exists st',
    run (bare_host ∅) ∅ = (Returns tt, st')
    /\ files st' = ∅
    /\ (forall var, var ∈ required_vars -> os_getenv (bare_host ∅) var = None ->
          Print ("  - " +:+ var) ∈ trace st')
    /\ Forall (fun e => is_io e = false) (trace st').
Proof.
  assert (exists var, var ∈ required_vars /\ os_getenv (bare_host ∅) var = None) as H.
  { exists "TWITTER_BEARER_TOKEN". split; [|reflexivity].
    unfold required_vars. rewrite !elem_of_cons. auto 10. }
  split; [exact H|].
  exact (main_stops_on_missing_variable (bare_host ∅) ∅ H).
Defined.

Lemma missing_vars_unsetenv h var :
  py_not (os_getenv h var) = true -> missing_vars (unsetenv var h) = missing_vars h.
Proof.
  intros Hnot. unfold missing_vars. apply list_filter_iff. intros x.
  unfold os_getenv, unsetenv; cbn [environ].
  destruct (decide (var = x)) as [->|Hne].
  - rewrite lookup_delete_eq. unfold os_getenv in Hnot. by rewrite Hnot.
  - by rewrite lookup_delete_ne.
Qed.

(** C9 (an empty credential counts as missing): a required variable set
    to the empty string is in the list of missing variables; the run prints
    its name and stops with the file system untouched and nothing but
    printed lines in the trace, and it is the very run the script makes
    when that variable is removed from the environment. *)
Theorem empty_variable_is_missing (h : host) (fs : gmap string content) (var : string)
    (Hreq : var ∈ required_vars) (Hempty : os_getenv h var = Some EmptyString) :
  var ∈ missing_vars h
  /\ (exists st',
        run h fs = (Returns tt, st')
        /\ files st' = fs
        /\ Print ("  - " +:+ var) ∈ trace st'
        /\ Forall (fun e => is_io e = false) (trace st'))
  /\ os_getenv (unsetenv var h) var = None
  /\ run h fs = run (unsetenv var h) fs.
Proof.
  assert (var ∈ missing_vars h) as Hin.
  { apply elem_of_missing_vars. by rewrite Hempty. }
  assert (missing_vars h <> []) as Hmiss.
  { intros Hnil. rewrite Hnil in Hin. by apply elem_of_nil in Hin. }
  assert (missing_vars (unsetenv var h) = missing_vars h) as Hsame.
  { apply missing_vars_unsetenv. by rewrite Hempty. }
  split; [done|]. split; [|split].
  - eexists. split; [by apply run_missing_vars|]. cbn [files trace].
    split; [done|]. split.
    + by apply list_elem_of_further, missing_report_names.
    + constructor; [done|]. apply missing_report_prints.
  - unfold os_getenv, unsetenv; cbn [environ]. apply lookup_delete_eq.
  - rewrite !run_missing_vars by (by rewrite ?Hsame).
    unfold missing_report, start_line. by rewrite Hsame.
Qed.

Lemma empty_variable_is_missing_witness :
  "TWITTER_API_KEY" ∈ required_vars
  /\ os_getenv blank_key_host "TWITTER_API_KEY" = Some EmptyString
  /\ run blank_key_host ∅ = run (unsetenv "TWITTER_API_KEY" blank_key_host) ∅.
Proof.
  assert ("TWITTER_API_KEY" ∈ required_vars) as Hreq by (apply list_elem_of_here).
  assert (os_getenv blank_key_host "TWITTER_API_KEY" = Some EmptyString) as Hempty
    by reflexivity.
  split; [exact Hreq|]. split; [exact Hempty|].
  exact (proj2 (proj2 (proj2 (empty_variable_is_missing blank_key_host ∅ _ Hreq Hempty)))).
Defined.

(** The run on a well-formed file with a pool that is not empty. *)
Lemma run_loaded h fs d tweets used_tweets :
  missing_vars h = [] ->
  fs !! tweets_json = Some (Document (JObj d)) ->
  as_strings (dict_get d "tweets" (JArr [])) = Some tweets ->
  tweets <> [] ->
  as_strings (dict_get d "used_tweets" (JArr [])) = Some used_tweets ->
  let selected := drawn h (candidates tweets used_tweets) in
  let used' := carried_used tweets used_tweets in
  let before := [start_line h; FileRead tweets_json] ++ reset_notice tweets used_tweets in
  run h fs =
    match net_get_me h (make_client h) with
    | inr msg =>
        (Returns tt,
         {| files := fs;
            trace := before ++ [GetMe (inr msg); Print ("Authentication failed: " +:+ msg)] |})
    | inl username =>
        match net_create_tweet h (make_client h) selected with
        | inr msg =>
            (Returns tt,
             {| files := fs;
                trace := before ++
                  [GetMe (inl username); Print ("Authenticated as: @" +:+ username);
                   CreateTweet selected (inr msg); Print ("Error posting tweet: " +:+ msg);
                   Print "Failed to post tweet."] |})
        | inl id =>
            let data := JObj (<["used_tweets" := of_strings (used' ++ [selected])]> d) in
            if encodable data then
              (Returns tt,
               {| files := <[tweets_json := Document data]> fs;
                  trace := before ++
                    [GetMe (inl username); Print ("Authenticated as: @" +:+ username);
                     CreateTweet selected (inl id);
                     Print ("Tweet posted successfully: " +:+ selected);
                     Print ("Tweet ID: " +:+ id);
                     FileRead tweets_json; FileWrite tweets_json data;
                     Print "Tweet posted and marked as used."] |})
            else
              (Raises UnicodeEncodeError,
               {| files := <[tweets_json := Fragment data]> fs;
                  trace := before ++
                    [GetMe (inl username); Print ("Authenticated as: @" +:+ username);
                     CreateTweet selected (inl id);
                     Print ("Tweet posted successfully: " +:+ selected);
                     Print ("Tweet ID: " +:+ id);
                     FileRead tweets_json; FileCut tweets_json data] |})
        end
    end.
Proof.
  intros Hmiss Hfile Htweets Hne Hused selected used' before.
  unfold run, main. step_print. rewrite Hmiss.
  step_with (load_tweets_dict tweets_json d
               (extend {| files := fs; trace := [] |}
                  [Print ("Twitter Bot running at " +:+ now h)]) Hfile).
  cbn [fst snd]. rewrite Htweets, Hused.
  destruct tweets as [|t0 tweets0]; [done|].
  match goal with |- bind _ _ ?st = _ =>
    destruct (selector_total h (t0 :: tweets0) used_tweets st Hne) as [Hsel _] end.
  step_with Hsel. fold selected used'.
  unfold authenticate_twitter, post_tweet.
  destruct (net_get_me h (make_client h)) as [username|msg].
  - rewrite (bind_returns _ _ _ (Some (make_client h))
               (extend (extend (extend (extend {| files := fs; trace := [] |}
                  [Print ("Twitter Bot running at " +:+ now h)]) [FileRead tweets_json])
                  (reset_notice (t0 :: tweets0) used_tweets))
                  [GetMe (inl username); Print ("Authenticated as: @" +:+ username)])).
    2:{ rewrite bind_eq, emit_eq, bind_eq, print_eq. unfold ret.
        by rewrite extend_extend. }
    destruct (net_create_tweet h (make_client h) selected) as [id|msg].
    + match goal with |- bind _ _ ?st = _ =>
        rewrite (bind_returns _ _ st true
          (extend st [CreateTweet selected (inl id);
                      Print ("Tweet posted successfully: " +:+ selected);
                      Print ("Tweet ID: " +:+ id)])) end.
      2:{ rewrite bind_eq, emit_eq, bind_eq, print_eq, bind_eq, print_eq. unfold ret.
          by rewrite !extend_extend. }
      assert (tweets_json <> EmptyString) as Hname by discriminate.
      destruct (encodable (JObj (<["used_tweets" := of_strings (used' ++ [selected])]> d)))
        eqn:Hdata.
      * match goal with |- bind _ _ ?st = _ =>
          assert (files st !! tweets_json = Some (Document (JObj d))) as Hfile'
            by exact Hfile;
          rewrite (bind_returns _ _ _ _ _
                     (save_used_tweets_dict (used' ++ [selected]) tweets_json d st
                        Hfile' Hname Hdata))
        end.
        rewrite print_eq. unfold start_line, before. flatten_trace. reflexivity.
      * match goal with |- bind _ _ ?st = _ =>
          assert (files st !! tweets_json = Some (Document (JObj d))) as Hfile'
            by exact Hfile;
          rewrite (bind_raises _ _ _ _ _
                     (save_used_tweets_dict_cut (used' ++ [selected]) tweets_json d st
                        Hfile' Hname Hdata))
        end.
        unfold start_line, before. flatten_trace. reflexivity.
    + match goal with |- bind _ _ ?st = _ =>
        rewrite (bind_returns _ _ st false
          (extend st [CreateTweet selected (inr msg);
                      Print ("Error posting tweet: " +:+ msg)])) end.
      2:{ rewrite bind_eq, emit_eq, bind_eq, print_eq. unfold ret.
          by rewrite !extend_extend. }
      rewrite print_eq. unfold start_line, before. flatten_trace. reflexivity.
  - rewrite (bind_returns _ _ _ None
               (extend (extend (extend (extend {| files := fs; trace := [] |}
                  [Print ("Twitter Bot running at " +:+ now h)]) [FileRead tweets_json])
                  (reset_notice (t0 :: tweets0) used_tweets))
                  [GetMe (inr msg); Print ("Authentication failed: " +:+ msg)])).
    2:{ rewrite bind_eq, emit_eq, bind_eq, print_eq. unfold ret.
        by rewrite extend_extend. }
    unfold ret, start_line, before. flatten_trace. reflexivity.
Qed.

(** The runs that stop before a message is selected. *)
Lemma run_no_file h fs :
  missing_vars h = [] ->
  fs !! tweets_json = None ->
  run h fs =
    (Returns tt,
     {| files := <[tweets_json := Document (JObj sample_data)]> fs;
        trace :=
          [start_line h; FileRead tweets_json;
           Print "Error: tweets.json not found. Creating sample file...";
           FileWrite tweets_json (JObj sample_data);
           Print "Created sample tweets.json. Please edit it with your own tweets!";
           Print "No tweets found in tweets.json"] |}).
Proof.
  intros Hmiss Hfile. unfold run, main. step_print. rewrite Hmiss.
  step_with (load_tweets_missing tweets_json
               (extend {| files := fs; trace := [] |}
                  [Print ("Twitter Bot running at " +:+ now h)]) Hfile
               ltac:(discriminate)).
  reflexivity.
Qed.

Lemma run_malformed h fs text :
  missing_vars h = [] ->
  fs !! tweets_json = Some (Malformed text) ->
  run h fs =
    (Returns tt,
     {| files := fs;
        trace :=
          [start_line h; FileRead tweets_json;
           Print "Error: Invalid JSON in tweets.json";
           Print "No tweets found in tweets.json"] |}).
Proof.
  intros Hmiss Hfile. unfold run, main. step_print. rewrite Hmiss.
  step_with (load_tweets_malformed tweets_json text
               (extend {| files := fs; trace := [] |}
                  [Print ("Twitter Bot running at " +:+ now h)]) Hfile).
  reflexivity.
Qed.

Lemma run_fragment h fs data :
  missing_vars h = [] ->
  fs !! tweets_json = Some (Fragment data) ->
  run h fs =
    (Returns tt,
     {| files := fs;
        trace :=
          [start_line h; FileRead tweets_json;
           Print "Error: Invalid JSON in tweets.json";
           Print "No tweets found in tweets.json"] |}).
Proof.
  intros Hmiss Hfile. unfold run, main. step_print. rewrite Hmiss.
  step_with (load_tweets_fragment tweets_json data
               (extend {| files := fs; trace := [] |}
                  [Print ("Twitter Bot running at " +:+ now h)]) Hfile).
  reflexivity.
Qed.

Lemma run_no_directory h fs :
  missing_vars h = [] ->
  fs !! tweets_json = Some NoDirectory ->
  run h fs =
    (Raises FileNotFoundError,
     {| files := fs;
        trace :=
          [start_line h; FileRead tweets_json;
           Print "Error: tweets.json not found. Creating sample file..."] |}).
Proof.
  intros Hmiss Hfile. unfold run, main. step_print. rewrite Hmiss.
  match goal with |- bind _ _ ?st = _ =>
    assert (~ creatable (files st) tweets_json) as Hpath
      by (intros [_ Hdir]; by apply Hdir);
    rewrite (bind_raises _ _ _ _ _
               (load_tweets_blocked tweets_json st (or_intror Hfile) Hpath))
  end.
  reflexivity.
Qed.

Lemma run_undecodable h fs :
  missing_vars h = [] ->
  fs !! tweets_json = Some Undecodable ->
  run h fs =
    (Raises UnicodeDecodeError,
     {| files := fs; trace := [start_line h; FileRead tweets_json] |}).
Proof.
  intros Hmiss Hfile. unfold run, main. step_print. rewrite Hmiss.
  step_with (load_tweets_undecodable tweets_json
               (extend {| files := fs; trace := [] |}
                  [Print ("Twitter Bot running at " +:+ now h)]) Hfile).
  reflexivity.
Qed.

Lemma run_not_dict h fs v :
  missing_vars h = [] ->
  fs !! tweets_json = Some (Document v) ->
  (forall d, v <> JObj d) ->
  run h fs =
    (Raises AttributeError,
     {| files := fs; trace := [start_line h; FileRead tweets_json] |}).
Proof.
  intros Hmiss Hfile Hv. unfold run, main. step_print. rewrite Hmiss.
  step_with (load_tweets_not_dict tweets_json v
               (extend {| files := fs; trace := [] |}
                  [Print ("Twitter Bot running at " +:+ now h)]) Hfile Hv).
  reflexivity.
Qed.

Lemma run_dict_no_selection h fs d :
  missing_vars h = [] ->
  fs !! tweets_json = Some (Document (JObj d)) ->
  (forall tweets used_tweets,
     as_strings (dict_get d "tweets" (JArr [])) = Some tweets ->
     tweets <> [] ->
     as_strings (dict_get d "used_tweets" (JArr [])) = Some used_tweets -> False) ->
  exists r evs,
    run h fs = (r, {| files := fs; trace := [start_line h; FileRead tweets_json] ++ evs |})
    /\ Forall (fun e => is_io e = false) evs.
Proof.
  intros Hmiss Hfile Hno. unfold run, main. step_print. rewrite Hmiss.
  step_with (load_tweets_dict tweets_json d
               (extend {| files := fs; trace := [] |}
                  [Print ("Twitter Bot running at " +:+ now h)]) Hfile).
  cbn [fst snd].
  destruct (as_strings (dict_get d "tweets" (JArr []))) as [[|t tweets]|] eqn:Htweets.
  - exists (Returns tt), [Print "No tweets found in tweets.json"].
    split; [reflexivity|]. by repeat constructor.
  - destruct (as_strings (dict_get d "used_tweets" (JArr []))) as [used_tweets|] eqn:Hused.
    + by destruct (Hno (t :: tweets) used_tweets).
    + exists Unmodelled, []. split; [reflexivity|]. constructor.
  - exists Unmodelled, []. split; [reflexivity|]. constructor.
Qed.

Lemma not_io_not_net (evs : list event) e :
  Forall (fun e => is_io e = false) evs -> e ∈ evs -> is_net e = true -> False.
Proof.
  intros Hall Hin Hnet. rewrite Forall_forall in Hall. specialize (Hall e Hin).
  destruct e; discriminate.
Qed.

Ltac no_net_in Hin Hnet :=
  repeat (apply elem_of_cons in Hin as [-> | Hin]; [discriminate Hnet|]);
  by apply elem_of_nil in Hin.

Lemma run_reaches_network h fs r st' e :
  run h fs = (r, st') -> e ∈ trace st' -> is_net e = true ->
  exists d tweets used_tweets, selects h fs d tweets used_tweets.
Proof.
  intros Hrun Hin Hnet.
  destruct (missing_vars h) as [|var vars] eqn:Hmiss.
  2:{ rewrite run_missing_vars in Hrun by (by rewrite Hmiss).
      injection Hrun as <- <-. cbn [trace] in Hin.
      exfalso. eapply not_io_not_net; [|exact Hin|exact Hnet].
      constructor; [done|]. apply missing_report_prints. }
  destruct (fs !! tweets_json) as [[| |text|data|v]|] eqn:Hfile.
  - rewrite (run_no_directory _ _ Hmiss Hfile) in Hrun. injection Hrun as <- <-.
    cbn [trace] in Hin. no_net_in Hin Hnet.
  - rewrite (run_undecodable _ _ Hmiss Hfile) in Hrun. injection Hrun as <- <-.
    cbn [trace] in Hin. no_net_in Hin Hnet.
  - rewrite (run_malformed _ _ _ Hmiss Hfile) in Hrun. injection Hrun as <- <-.
    cbn [trace] in Hin. no_net_in Hin Hnet.
  - rewrite (run_fragment _ _ _ Hmiss Hfile) in Hrun. injection Hrun as <- <-.
    cbn [trace] in Hin. no_net_in Hin Hnet.
  - assert ((exists d, v = JObj d) \/ (forall d, v <> JObj d)) as [[d ->]|Hv]
      by (destruct v; eauto; right; discriminate).
    + destruct (as_strings (dict_get d "tweets" (JArr []))) as [tweets|] eqn:Htweets.
      * destruct (as_strings (dict_get d "used_tweets" (JArr []))) as [used_tweets|] eqn:Hused.
        -- destruct tweets as [|t tweets].
           ++ destruct (run_dict_no_selection h fs d Hmiss Hfile) as (r0 & evs & Hr & Hevs).
              { intros tweets' used' Ht Hne _. apply Hne. congruence. }
              rewrite Hr in Hrun. injection Hrun as <- <-. cbn [trace] in Hin.
              exfalso. apply (not_io_not_net evs e); [done| |done].
              apply elem_of_cons in Hin as [-> | Hin]; [discriminate Hnet|].
              apply elem_of_cons in Hin as [-> | Hin]; [discriminate Hnet|done].
           ++ by exists d, (t :: tweets), used_tweets.
        -- destruct (run_dict_no_selection h fs d Hmiss Hfile) as (r0 & evs & Hr & Hevs).
           { intros tweets' used'. congruence. }
           rewrite Hr in Hrun. injection Hrun as <- <-. cbn [trace] in Hin.
           exfalso. apply (not_io_not_net evs e); [done| |done].
              apply elem_of_cons in Hin as [-> | Hin]; [discriminate Hnet|].
              apply elem_of_cons in Hin as [-> | Hin]; [discriminate Hnet|done].
      * destruct (run_dict_no_selection h fs d Hmiss Hfile) as (r0 & evs & Hr & Hevs).
        { intros tweets' used'. congruence. }
        rewrite Hr in Hrun. injection Hrun as <- <-. cbn [trace] in Hin.
        exfalso. apply (not_io_not_net evs e); [done| |done].
              apply elem_of_cons in Hin as [-> | Hin]; [discriminate Hnet|].
              apply elem_of_cons in Hin as [-> | Hin]; [discriminate Hnet|done].
    + rewrite (run_not_dict _ _ _ Hmiss Hfile Hv) in Hrun. injection Hrun as <- <-.
      cbn [trace] in Hin. no_net_in Hin Hnet.
  - rewrite (run_no_file _ _ Hmiss Hfile) in Hrun. injection Hrun as <- <-.
    cbn [trace] in Hin. no_net_in Hin Hnet.
Qed.

Lemma loaded_trace_inv h filename tweets used_tweets (rest : list event) e :
  e ∈ start_line h :: FileRead filename :: reset_notice tweets used_tweets ++ rest ->
  quiet e \/ e ∈ rest.
Proof.
  intros Hin.
  apply elem_of_cons in Hin as [-> | Hin]; [by left|].
  apply elem_of_cons in Hin as [-> | Hin]; [by left|].
  apply elem_of_app in Hin as [Hin | Hin]; [left|by right].
  unfold reset_notice in Hin. destruct (available_tweets tweets used_tweets).
  - apply elem_of_cons in Hin as [-> | Hin]; [done|]. by apply elem_of_nil in Hin.
  - by apply elem_of_nil in Hin.
Qed.

(** Splits the outcome of a loaded run on whether the dump got through. *)
Ltac split_write Hrun :=
  cbv zeta in Hrun;
  match type of Hrun with
  | context [if encodable ?data then _ else _] =>
      let Hdata := fresh "Hdata" in destruct (encodable data) eqn:Hdata
  end.

(** Splits a membership in the trace of a loaded run: the part before
    authentication is quiet, the rest is an explicit list. *)
Ltac trace_cases Hin :=
  cbn [trace app] in Hin;
  apply loaded_trace_inv in Hin as [Hin | Hin];
  [ destruct Hin
  | repeat (apply elem_of_cons in Hin as [Hin | Hin];
            [ try discriminate Hin | ]);
    try (by apply elem_of_nil in Hin) ].

Lemma fresh_available tweets used_tweets :
  (exists t, t ∈ tweets /\ t ∉ used_tweets) ->
  tweets <> []
  /\ candidates tweets used_tweets = available_tweets tweets used_tweets
  /\ carried_used tweets used_tweets = used_tweets
  /\ reset_notice tweets used_tweets = [].
Proof.
  intros (t & Hin & Hfresh).
  assert (t ∈ available_tweets tweets used_tweets) as Hav
    by (by apply elem_of_available_tweets).
  split; [intros ->; by apply elem_of_nil in Hin|].
  unfold candidates, carried_used, reset_notice.
  destruct (available_tweets tweets used_tweets); [by apply elem_of_nil in Hav|done].
Qed.

(** ** Properties of whole runs *)

(** A malformed file is an empty pool (the unparsable files the loader
    does handle):
    on a file whose text [json.load] rejects the loader prints the problem
    and returns two empty lists, leaving the file as it is; a run on such a
    [tweets.json] (with the credentials in place) then prints that no
    tweets were found and returns: nothing is written and no network call
    is made. *)
Theorem malformed_file_is_an_empty_pool (h : host) (filename text : string) (st : state)
    (Hfile : files st !! filename = Some (Malformed text)) :
  load_tweets filename st =
    (Returns (JArr [], JArr []),
     {| files := files st;
        trace := trace st ++
          [FileRead filename; Print ("Error: Invalid JSON in " +:+ filename)] |})
  /\ (filename = tweets_json -> missing_vars h = [] ->
      run h (files st) =
        (Returns tt,
         {| files := files st;
            trace :=
              [Print ("Twitter Bot running at " +:+ now h); FileRead tweets_json;
               Print "Error: Invalid JSON in tweets.json";
               Print "No tweets found in tweets.json"] |})).
Proof.
  split.
  - by apply (load_tweets_malformed filename text).
  - intros -> Hmiss. by apply (run_malformed h (files st) text).
Qed.

(** C2 (no repeat before exhaustion): when some pool element is not in
    the used list, the selector returns an element of the pool that is not
    in the used list and leaves the used list and the state as they are;
    so every message a run on such a file submits for publishing is a pool
    element outside the used list.  On the pool [A, B] with [A] used the
    selector returns [B], whatever the random source gives. *)
Theorem selector_never_repeats (h : host) (tweets used_tweets : list string)
    (Hfresh : exists t, t ∈ tweets /\ t ∉ used_tweets) :
  (forall st, exists selected,
      selector h tweets used_tweets st = (Returns (selected, used_tweets), st)
      /\ selected ∈ tweets /\ selected ∉ used_tweets)
  /\ (forall fs d r st' text reply,
        fs !! tweets_json = Some (Document (JObj d)) ->
        as_strings (dict_get d "tweets" (JArr [])) = Some tweets ->
        as_strings (dict_get d "used_tweets" (JArr [])) = Some used_tweets ->
        run h fs = (r, st') ->
        CreateTweet text reply ∈ trace st' ->
        text ∈ tweets /\ text ∉ used_tweets)
  /\ (forall h' st, selector h' ["A"; "B"] ["A"] st = (Returns ("B", ["A"]), st)).
Proof.
  destruct (fresh_available _ _ Hfresh) as (Hne & Hcand & Hcarried & Hnotice).
  assert (drawn h (candidates tweets used_tweets) ∈ tweets
          /\ drawn h (candidates tweets used_tweets) ∉ used_tweets) as Hdrawn.
  { destruct (selector_total h tweets used_tweets {| files := ∅; trace := [] |} Hne)
      as [_ Hin].
    rewrite Hcand in Hin at 2. by apply elem_of_available_tweets in Hin. }
  split; [|split].
  - intros st. exists (drawn h (candidates tweets used_tweets)).
    destruct (selector_total h tweets used_tweets st Hne) as [Hsel _].
    rewrite Hsel, Hcarried, Hnotice, extend_nil. done.
  - intros fs d r st' text reply Hfile Htweets Hused Hrun Hin.
    destruct (run_reaches_network h fs r st' _ Hrun Hin eq_refl)
      as (d0 & tweets0 & used0 & Hmiss & _).
    rewrite (run_loaded h fs d tweets used_tweets Hmiss Hfile Htweets Hne Hused) in Hrun.
    destruct (net_get_me h (make_client h)) as [username|msg].
    + destruct (net_create_tweet h (make_client h) _) as [id|msg];
        [split_write Hrun|];
        injection Hrun as <- <-; trace_cases Hin; by injection Hin as -> ->.
    + injection Hrun as <- <-. trace_cases Hin.
  - intros h' st. rewrite selector_eq.
    assert (available_tweets ["A"; "B"] ["A"] = ["B"]) as Hav by reflexivity.
    unfold candidates, carried_used, reset_notice. rewrite Hav.
    unfold random_choice. cbn [length]. rewrite Nat.mod_1_r, extend_nil.
    reflexivity.
Qed.



(** C4 (nothing persisted on failure): in a run where authentication
    failed or the publish call failed, the run returns normally, no file
    was written and the file system is the one the run started with. *)
Theorem failed_run_persists_nothing (h : host) (fs : gmap string content)
    (r : result unit) (st' : state)
    (Hrun : run h fs = (r, st'))
    (Hfailed : (exists msg, GetMe (inr msg) ∈ trace st')
               \/ (exists text msg, CreateTweet text (inr msg) ∈ trace st')) :
  r = Returns tt
  /\ files st' = fs
  /\ (forall path v, FileWrite path v ∉ trace st').
Proof.
  assert (exists e, e ∈ trace st' /\ is_net e = true) as (e & Hin & Hnet).
  { destruct Hfailed as [[msg H]|(text & msg & H)]; eauto. }
  destruct (run_reaches_network h fs r st' _ Hrun Hin Hnet)
    as (d & tweets & used_tweets & Hmiss & Hfile & Htweets & Hne & Hused).
  clear e Hin Hnet.
  rewrite (run_loaded h fs d tweets used_tweets Hmiss Hfile Htweets Hne Hused) in Hrun.
  destruct (net_get_me h (make_client h)) as [username|msg0].
  - destruct (net_create_tweet h (make_client h) _) as [id|msg0];
      [split_write Hrun|]; injection Hrun as <- <-.
    + exfalso. destruct Hfailed as [[msg H]|(text & msg & H)]; trace_cases H.
    + exfalso. destruct Hfailed as [[msg H]|(text & msg & H)]; trace_cases H.
    + repeat split; try done. intros path v H. trace_cases H.
  - injection Hrun as <- <-. repeat split; try done.
    intros path v H. trace_cases H.
Qed.

(** ** Concrete runs *)

(** Pool [A, B] with [A] used: [B] is published and the file then records
    both as used. *)
Example run_publishes_the_unused_message :
  run demo_host demo_files =
    (Returns tt,
     {| files := {[ tweets_json :=
                      Document (JObj (<["used_tweets" := of_strings ["A"; "B"]]> demo_data)) ]};
        trace :=
          [Print "Twitter Bot running at 2024-01-01 09:00:00"; FileRead tweets_json;
           GetMe (inl "tessa"); Print "Authenticated as: @tessa";
           CreateTweet "B" (inl "1"); Print "Tweet posted successfully: B";
           Print "Tweet ID: 1"; FileRead tweets_json;
           FileWrite tweets_json
             (JObj (<["used_tweets" := of_strings ["A"; "B"]]> demo_data));
           Print "Tweet posted and marked as used."] |}).
Proof. vm_compute. reflexivity. Qed.

(** Pool [A, B] with both used: the used list is cleared before the
    draw, so the file then records the published message alone. *)
Example run_on_exhausted_pool_resets :
  run demo_host exhausted_files =
    (Returns tt,
     {| files := {[ tweets_json :=
                      Document (JObj (<["used_tweets" := of_strings ["A"]]> exhausted_data)) ]};
        trace :=
          [Print "Twitter Bot running at 2024-01-01 09:00:00"; FileRead tweets_json;
           Print "All tweets have been used. Resetting...";
           GetMe (inl "tessa"); Print "Authenticated as: @tessa";
           CreateTweet "A" (inl "1"); Print "Tweet posted successfully: A";
           Print "Tweet ID: 1"; FileRead tweets_json;
           FileWrite tweets_json
             (JObj (<["used_tweets" := of_strings ["A"]]> exhausted_data));
           Print "Tweet posted and marked as used."] |}).
Proof. vm_compute. reflexivity. Qed.

(** With no file the run creates the sample file and stops: the fresh
    pool is not read back. *)
Example run_without_file_bootstraps :
  run demo_host ∅ =
    (Returns tt,
     {| files := {[ tweets_json := Document (JObj sample_data) ]};
        trace :=
          [Print "Twitter Bot running at 2024-01-01 09:00:00"; FileRead tweets_json;
           Print "Error: tweets.json not found. Creating sample file...";
           FileWrite tweets_json (JObj sample_data);
           Print "Created sample tweets.json. Please edit it with your own tweets!";
           Print "No tweets found in tweets.json"] |}).
Proof. vm_compute. reflexivity. Qed.

Ltac in_computed_list :=
  vm_compute; repeat first [ apply list_elem_of_here | apply list_elem_of_further ].

Lemma malformed_file_is_an_empty_pool_witness :
  broken_files !! tweets_json = Some (Malformed "{tweets: ")
  /\ tweets_json = tweets_json
  /\ missing_vars demo_host = []
  /\ run demo_host broken_files =
       (Returns tt,
        {| files := broken_files;
           trace :=
             [Print "Twitter Bot running at 2024-01-01 09:00:00"; FileRead tweets_json;
              Print "Error: Invalid JSON in tweets.json";
              Print "No tweets found in tweets.json"] |}).
Proof.
  assert (broken_files !! tweets_json = Some (Malformed "{tweets: ")) as Hfile
    by reflexivity.
  assert (missing_vars demo_host = []) as Hmiss by reflexivity.
  split; [exact Hfile|]. split; [reflexivity|]. split; [exact Hmiss|].
  exact (proj2 (malformed_file_is_an_empty_pool demo_host tweets_json _
                  {| files := broken_files; trace := [] |} Hfile) eq_refl Hmiss).
Defined.

Lemma selector_never_repeats_witness :
  (exists t, t ∈ ["A"; "B"] /\ t ∉ ["A"])
  /\ exists selected,
       selector demo_host ["A"; "B"] ["A"] {| files := demo_files; trace := [] |}
         = (Returns (selected, ["A"]), {| files := demo_files; trace := [] |})
       /\ selected ∈ ["A"; "B"] /\ selected ∉ ["A"].
Proof.
  assert (exists t : string, t ∈ ["A"; "B"] /\ t ∉ ["A"]) as Hfresh.
  { exists "B". split; [by apply list_elem_of_further, list_elem_of_here|].
    intros Hin. apply elem_of_cons in Hin as [Hin | Hin]; [discriminate Hin|].
    by apply elem_of_nil in Hin. }
  split; [exact Hfresh|].
  exact (proj1 (selector_never_repeats demo_host ["A"; "B"] ["A"] Hfresh)
           {| files := demo_files; trace := [] |}).
Defined.


Lemma failed_run_persists_nothing_witness :
  (exists msg, GetMe (inr msg) ∈ trace (run rejecting_host demo_files).2)
  /\ files (run rejecting_host demo_files).2 = demo_files.
Proof.
  assert (exists msg, GetMe (inr msg) ∈ trace (run rejecting_host demo_files).2) as Hfailed.
  { exists "401 Unauthorized". in_computed_list. }
  split; [exact Hfailed|].
  exact (proj1 (proj2 (failed_run_persists_nothing rejecting_host demo_files
                         (run rejecting_host demo_files).1 (run rejecting_host demo_files).2
                         (surjective_pairing _) (or_introl Hfailed)))).
Defined.

Ltac clean_list :=
  repeat first [ apply Forall_nil_2 | apply Forall_cons_2; [reflexivity|] ].



(** C5 (an unparsable file is to be an empty pool) at a file whose
    bytes are not UTF-8 text: reading it raises [UnicodeDecodeError], which
    the loader's handlers ([FileNotFoundError], [JSONDecodeError]) miss, so
    the loader returns nothing and the run ends with that exception,
    instead of reporting the file and going on with two empty lists.  The
    re-read in [save_used_tweets], under its bare [except], does take the
    same file as unreadable and goes on. *)
Lemma undecodable_file_escapes_loader :
  garbled_files !! tweets_json = Some Undecodable
  /\ load_tweets tweets_json {| files := garbled_files; trace := [] |}
     = (Raises UnicodeDecodeError,
        {| files := garbled_files; trace := [FileRead tweets_json] |})
  /\ ~ (exists st',
          load_tweets tweets_json {| files := garbled_files; trace := [] |}
          = (Returns (JArr [], JArr []), st'))
  /\ run demo_host garbled_files
     = (Raises UnicodeDecodeError,
        {| files := garbled_files;
           trace := [Print "Twitter Bot running at 2024-01-01 09:00:00";
                     FileRead tweets_json] |})
  /\ (save_used_tweets ["A"] tweets_json {| files := garbled_files; trace := [] |}).1
     = Returns tt.
Proof.
  assert (load_tweets tweets_json {| files := garbled_files; trace := [] |}
          = (Raises UnicodeDecodeError,
             {| files := garbled_files; trace := [FileRead tweets_json] |})) as Hload
    by reflexivity.
  split; [reflexivity|]. split; [exact Hload|]. split; [|split].
  - intros [st' H]. rewrite Hload in H. discriminate H.
  - reflexivity.
  - vm_compute. reflexivity.
Qed.

(** ** Every run, case by case *)

Lemma run_empty_pool h fs d :
  missing_vars h = [] ->
  fs !! tweets_json = Some (Document (JObj d)) ->
  as_strings (dict_get d "tweets" (JArr [])) = Some [] ->
  run h fs =
    (Returns tt,
     {| files := fs;
        trace := [start_line h; FileRead tweets_json;
                  Print "No tweets found in tweets.json"] |}).
Proof.
  intros Hmiss Hfile Htweets. unfold run, main. step_print. rewrite Hmiss.
  step_with (load_tweets_dict tweets_json d
               (extend {| files := fs; trace := [] |}
                  [Print ("Twitter Bot running at " +:+ now h)]) Hfile).
  cbn [fst snd]. rewrite Htweets. reflexivity.
Qed.

Lemma run_unmodelled h fs d :
  missing_vars h = [] ->
  fs !! tweets_json = Some (Document (JObj d)) ->
  as_strings (dict_get d "tweets" (JArr [])) = None
  \/ (as_strings (dict_get d "tweets" (JArr [])) <> Some []
      /\ as_strings (dict_get d "used_tweets" (JArr [])) = None) ->
  run h fs =
    (Unmodelled, {| files := fs; trace := [start_line h; FileRead tweets_json] |}).
Proof.
  intros Hmiss Hfile Hout. unfold run, main. step_print. rewrite Hmiss.
  step_with (load_tweets_dict tweets_json d
               (extend {| files := fs; trace := [] |}
                  [Print ("Twitter Bot running at " +:+ now h)]) Hfile).
  cbn [fst snd].
  destruct Hout as [Htweets | [Hne Hused]].
  - rewrite Htweets. reflexivity.
  - destruct (as_strings (dict_get d "tweets" (JArr []))) as [[|t tweets]|];
      [done| |reflexivity].
    rewrite Hused. reflexivity.
Qed.

Lemma run_cases h fs : run_case h fs (run h fs).1 (run h fs).2.
Proof.
  destruct (missing_vars h) as [|var vars] eqn:Hmiss.
  2:{ rewrite run_missing_vars by (by rewrite Hmiss).
      apply stops_on_environment. by rewrite Hmiss. }
  destruct (fs !! tweets_json) as [[| |text|data|v]|] eqn:Hfile.
  - rewrite (run_no_directory _ _ Hmiss Hfile). by apply dies_on_missing_directory.
  - rewrite (run_undecodable _ _ Hmiss Hfile). by apply dies_on_undecodable.
  - rewrite (run_malformed _ _ _ Hmiss Hfile). by apply (stops_on_malformed _ _ text).
  - rewrite (run_fragment _ _ _ Hmiss Hfile). by apply (stops_on_fragment _ _ data).
  - assert ((exists d, v = JObj d) \/ (forall d, v <> JObj d)) as [[d ->]|Hv]
      by (destruct v; eauto; right; discriminate).
    2:{ rewrite (run_not_dict _ _ _ Hmiss Hfile Hv). by apply (dies_on_non_object _ _ v). }
    destruct (as_strings (dict_get d "tweets" (JArr []))) as [[|t tweets]|] eqn:Htweets.
    + rewrite (run_empty_pool _ _ _ Hmiss Hfile Htweets). by eapply stops_on_empty_pool.
    + destruct (as_strings (dict_get d "used_tweets" (JArr []))) as [used_tweets|] eqn:Hused.
      * assert (selects h fs d (t :: tweets) used_tweets) as Hsel by done.
        rewrite (run_loaded h fs d (t :: tweets) used_tweets Hmiss Hfile Htweets
                   ltac:(done) Hused).
        destruct (net_get_me h (make_client h)) as [username|msg] eqn:Hme.
        -- destruct (net_create_tweet h (make_client h) _) as [id|msg] eqn:Hpost.
           ++ cbv zeta.
              destruct (encodable
                          (JObj (<["used_tweets" :=
                                     of_strings (carried_used (t :: tweets) used_tweets
                                                 ++ [drawn h (candidates (t :: tweets)
                                                                used_tweets)])]> d)))
                eqn:Hdata.
              ** by eapply posts.
              ** by eapply loses_the_file.
           ++ by eapply posting_fails.
        -- by eapply authentication_fails.
      * rewrite (run_unmodelled h fs d Hmiss Hfile).
        -- apply (leaves_the_model _ _ d); [done|done|].
           right. split; [by rewrite Htweets|done].
        -- right. split; [by rewrite Htweets|done].
    + rewrite (run_unmodelled h fs d Hmiss Hfile); [|by left].
      apply (leaves_the_model _ _ d); [done|done|by left].
  - rewrite (run_no_file _ _ Hmiss Hfile). by apply stops_after_bootstrap.
Qed.

Ltac by_run_cases h fs :=
  destruct (run_cases h fs) as
    [Hmiss|Hmiss Hf|text Hmiss Hf|Hmiss Hf|v Hmiss Hf Hv|d0 Hmiss Hf Ht0
    |d0 Hmiss Hf Hout|d0 tweets0 used0 msg Hsel Hme
    |d0 tweets0 used0 username msg Hsel Hme Hpost
    |d0 tweets0 used0 username id Hsel Hme Hpost Hdata
    |data Hmiss Hf|Hmiss Hf
    |d0 tweets0 used0 username id Hsel Hme Hpost Hdata].

(** ** More on the loader and the writer *)

Lemma as_strings_of_strings l : as_strings (of_strings l) = Some l.
Proof.
  unfold as_strings, of_strings. apply mapM_Some.
  induction l as [|x l IH]; simpl; by constructor.
Qed.

Lemma dict_get_insert_eq (d : gmap string json) key v default :
  dict_get (<[key := v]> d) key default = v.
Proof. unfold dict_get. by rewrite lookup_insert_eq. Qed.

Lemma dict_get_insert_ne (d : gmap string json) key key' v default :
  key <> key' -> dict_get (<[key := v]> d) key' default = dict_get d key' default.
Proof. intros Hne. unfold dict_get. by rewrite lookup_insert_ne. Qed.

Lemma save_used_tweets_assignable used_tweets filename st :
  assignable (files st !! filename) ->
  creatable (files st) filename ->
  encodable (JObj (<["used_tweets" := of_strings used_tweets]>
                     (base_object (files st !! filename)))) = true ->
  save_used_tweets used_tweets filename st =
    (Returns tt,
     {| files :=
          <[filename :=
              Document (JObj (<["used_tweets" := of_strings used_tweets]>
                                (base_object (files st !! filename))))]> (files st);
        trace := trace st ++
          [FileRead filename;
           FileWrite filename
             (JObj (<["used_tweets" := of_strings used_tweets]>
                      (base_object (files st !! filename))))] |}).
Proof.
  intros Hok Hpath Hdata. rewrite (save_used_tweets_read _ _ _ Hok).
  rewrite write_json_eq; [|done|done]. flatten_trace. reflexivity.
Qed.

(** X1 (fields and their defaults): on a file holding a JSON object the
    loader returns the values stored under [tweets] and [used_tweets], and
    the empty list for a key the object does not have; it reads once and
    leaves the file system as it is. *)
Theorem load_tweets_reads_fields_with_defaults (filename : string) (st : state)
    (d : gmap string json)
    (Hfile : files st !! filename = Some (Document (JObj d))) :
  exists tweets used_tweets,
    load_tweets filename st =
      (Returns (tweets, used_tweets),
       {| files := files st; trace := trace st ++ [FileRead filename] |})
    /\ (forall v, d !! "tweets" = Some v -> tweets = v)
    /\ (d !! "tweets" = None -> tweets = JArr [])
    /\ (forall v, d !! "used_tweets" = Some v -> used_tweets = v)
    /\ (d !! "used_tweets" = None -> used_tweets = JArr []).
Proof.
  eexists _, _. split; [by apply load_tweets_dict|].
  unfold dict_get. repeat split.
  - by intros v ->.
  - by intros ->.
  - by intros v ->.
  - by intros ->.
Qed.

Lemma load_tweets_reads_fields_with_defaults_witness :
  pool_only_files !! tweets_json = Some (Document (JObj pool_only_data))
  /\ (load_tweets tweets_json {| files := pool_only_files; trace := [] |}).1
     = Returns (of_strings ["A"], JArr []).
Proof.
  assert (pool_only_files !! tweets_json = Some (Document (JObj pool_only_data))) as Hfile
    by reflexivity.
  split; [exact Hfile|].
  destruct (load_tweets_reads_fields_with_defaults tweets_json
              {| files := pool_only_files; trace := [] |} pool_only_data Hfile)
    as (tweets & used_tweets & Hload & Ht & _ & _ & Hu).
  rewrite Hload. cbn [fst].
  rewrite (Ht (of_strings ["A"])), Hu by reflexivity. reflexivity.
Defined.

Lemma load_tweets_keeps_existing_file_aux filename st :
  is_Some (files st !! filename) ->
  files (load_tweets filename st).2 = files st
  /\ exists evs, trace (load_tweets filename st).2 = trace st ++ evs
                 /\ Forall quiet evs.
Proof.
  intros [c Hc]. destruct c as [| |text|data|v].
  - rewrite (load_tweets_blocked filename st (or_intror Hc)); [|intros [_ Hdir]; done].
    split; [done|]. eexists. split; [done|]. by repeat constructor.
  - rewrite (load_tweets_undecodable _ _ Hc). split; [done|].
    eexists. split; [done|]. by repeat constructor.
  - rewrite (load_tweets_malformed _ _ _ Hc). split; [done|].
    eexists. split; [done|]. by repeat constructor.
  - rewrite (load_tweets_fragment _ _ _ Hc). split; [done|].
    eexists. split; [done|]. by repeat constructor.
  - assert ((exists d, v = JObj d) \/ (forall d, v <> JObj d)) as [[d ->]|Hv]
      by (destruct v; eauto; right; discriminate).
    + rewrite (load_tweets_dict _ _ _ Hc). split; [done|].
      eexists. split; [done|]. by repeat constructor.
    + rewrite (load_tweets_not_dict _ _ _ Hc Hv). split; [done|].
      eexists. split; [done|]. by repeat constructor.
Qed.

(** X2 (an existing file survives loading): whatever an existing file
    holds (an object, other JSON, malformed text, undecodable bytes), the
    loader leaves the whole file system as it found it and adds only one
    read and printed lines to the trace. *)
Theorem load_tweets_keeps_existing_file (filename : string) (st : state)
    (Hexists : is_Some (files st !! filename)) :
  files (load_tweets filename st).2 = files st
  /\ exists evs, trace (load_tweets filename st).2 = trace st ++ evs
                 /\ Forall quiet evs.
Proof. by apply load_tweets_keeps_existing_file_aux. Qed.

Lemma load_tweets_keeps_existing_file_witness :
  is_Some (broken_files !! tweets_json)
  /\ files (load_tweets tweets_json {| files := broken_files; trace := [] |}).2 = broken_files.
Proof.
  assert (is_Some (broken_files !! tweets_json)) as H by (eexists; reflexivity).
  split; [exact H|].
  exact (proj1 (load_tweets_keeps_existing_file tweets_json
                  {| files := broken_files; trace := [] |} H)).
Defined.

(** X3 (JSON that is not an object): when the file holds valid JSON whose
    top-level value is not an object, the loader raises [AttributeError]
    (nothing catches it) and the writer raises [TypeError]; each has read
    the file once and neither writes. *)
Theorem non_object_document_raises (used_tweets : list string) (filename : string)
    (st : state) (v : json)
    (Hfile : files st !! filename = Some (Document v))
    (Hv : forall d, v <> JObj d) :
  load_tweets filename st =
    (Raises AttributeError,
     {| files := files st; trace := trace st ++ [FileRead filename] |})
  /\ save_used_tweets used_tweets filename st =
       (Raises TypeError,
        {| files := files st; trace := trace st ++ [FileRead filename] |}).
Proof.
  split.
  - by apply (load_tweets_not_dict filename v).
  - by apply (save_used_tweets_not_dict used_tweets filename v).
Qed.

Lemma non_object_document_raises_witness :
  array_files !! tweets_json = Some (Document (JArr [JStr "A"; JStr "B"]))
  /\ (forall d, JArr [JStr "A"; JStr "B"] <> JObj d)
  /\ (load_tweets tweets_json {| files := array_files; trace := [] |}).1
     = Raises AttributeError
  /\ (save_used_tweets ["A"] tweets_json {| files := array_files; trace := [] |}).1
     = Raises TypeError.
Proof.
  assert (array_files !! tweets_json = Some (Document (JArr [JStr "A"; JStr "B"]))) as Hfile
    by reflexivity.
  assert (forall d, JArr [JStr "A"; JStr "B"] <> JObj d) as Hv by discriminate.
  split; [exact Hfile|]. split; [exact Hv|].
  destruct (non_object_document_raises ["A"] tweets_json
              {| files := array_files; trace := [] |} _ Hfile Hv) as [Hl Hs].
  rewrite Hl, Hs. split; reflexivity.
Defined.

(** X5 (the last save wins): take two lists whose strings UTF-8 can
    encode, a path at which a file can be written, and a file that is not
    valid JSON of another shape than an object, its strings encodable if it
    is an object.  Then saving the first list and after it the second
    leaves the file system exactly as saving the second list alone does. *)
Theorem save_used_tweets_last_write_wins (first second : list string) (filename : string)
    (st : state)
    (Hok : assignable (files st !! filename))
    (Hpath : creatable (files st) filename)
    (Hbase : encodable (JObj (base_object (files st !! filename))) = true)
    (Hfirst : Forall clean first)
    (Hsecond : Forall clean second) :
  exists st1 st2,
    save_used_tweets first filename st = (Returns tt, st1)
    /\ save_used_tweets second filename st1 = (Returns tt, st2)
    /\ files st2 = files (save_used_tweets second filename st).2.
Proof.
  assert (forall l, Forall clean l ->
            encodable (JObj (<["used_tweets" := of_strings l]>
                               (base_object (files st !! filename)))) = true) as Hdata.
  { intros l Hl. apply encodable_insert; [done|reflexivity|by apply encodable_of_strings]. }
  eexists _, _. split; [by apply save_used_tweets_assignable; auto|]. split.
  - apply save_used_tweets_dict.
    + cbn [files]. by rewrite lookup_insert_eq.
    + by destruct Hpath.
    + rewrite insert_insert_eq. by apply Hdata.
  - rewrite (save_used_tweets_assignable second filename st Hok Hpath (Hdata _ Hsecond)).
    cbn [snd files]. by rewrite insert_insert_eq, insert_insert_eq.
Qed.

Lemma save_used_tweets_last_write_wins_witness :
  assignable (broken_files !! tweets_json)
  /\ creatable broken_files tweets_json
  /\ encodable (JObj (base_object (broken_files !! tweets_json))) = true
  /\ Forall clean ["A"]
  /\ Forall clean ["B"]
  /\ exists st1 st2,
       save_used_tweets ["A"] tweets_json {| files := broken_files; trace := [] |}
         = (Returns tt, st1)
       /\ save_used_tweets ["B"] tweets_json st1 = (Returns tt, st2)
       /\ files st2
          = files (save_used_tweets ["B"] tweets_json
                     {| files := broken_files; trace := [] |}).2.
Proof.
  assert (assignable (broken_files !! tweets_json)) as Hok.
  { intros v Hv. discriminate Hv. }
  assert (creatable broken_files tweets_json) as Hpath by (split; discriminate).
  assert (encodable (JObj (base_object (broken_files !! tweets_json))) = true) as Hbase
    by (vm_compute; reflexivity).
  assert (Forall clean ["A"]) as Hfirst by clean_list.
  assert (Forall clean ["B"]) as Hsecond by clean_list.
  split; [exact Hok|]. split; [exact Hpath|]. split; [exact Hbase|].
  split; [exact Hfirst|]. split; [exact Hsecond|].
  exact (save_used_tweets_last_write_wins ["A"] ["B"] tweets_json
           {| files := broken_files; trace := [] |} Hok Hpath Hbase Hfirst Hsecond).
Defined.

(** ** More on whole runs *)

Lemma net_calls_app evs evs' : net_calls (evs ++ evs') = net_calls evs ++ net_calls evs'.
Proof. apply filter_app. Qed.

Lemma net_calls_not_io evs :
  Forall (fun e => is_io e = false) evs -> net_calls evs = [].
Proof.
  induction 1 as [|e evs He _ IH]; [done|].
  unfold net_calls in *. rewrite filter_cons, IH.
  destruct e; try discriminate He. by rewrite decide_False.
Qed.

Lemma net_calls_before h tweets used_tweets :
  net_calls ([start_line h; FileRead tweets_json] ++ reset_notice tweets used_tweets) = [].
Proof.
  unfold reset_notice. by destruct (available_tweets tweets used_tweets).
Qed.

(** X9 (no retry, and in order): the network calls of a run are none at
    all, or one failed [get_me], or one successful [get_me] followed by one
    [create_tweet] whose reply is the service's answer for that text. *)
Theorem run_calls_the_service_once (h : host) (fs : gmap string content) :
  net_calls (trace (run h fs).2) = []
  \/ (exists msg, net_calls (trace (run h fs).2) = [GetMe (inr msg)])
  \/ (exists username text,
        net_calls (trace (run h fs).2)
        = [GetMe (inl username);
           CreateTweet text (net_create_tweet h (make_client h) text)]
        /\ net_get_me h (make_client h) = inl username).
Proof.
  destruct (run_cases h fs) as
    [Hmiss|Hmiss Hfile|text Hmiss Hfile|Hmiss Hfile|v Hmiss Hfile Hv|d Hmiss Hfile Ht
    |d Hmiss Hfile Hout|d tweets used_tweets msg Hsel Hme
    |d tweets used_tweets username msg Hsel Hme Hpost
    |d tweets used_tweets username id Hsel Hme Hpost Hdata
    |data Hmiss Hfile|Hmiss Hfile
    |d tweets used_tweets username id Hsel Hme Hpost Hdata]; cbn [trace].
  - left. apply net_calls_not_io. constructor; [done|]. apply missing_report_prints.
  - by left.
  - by left.
  - by left.
  - by left.
  - by left.
  - by left.
  - right. left. exists msg. by rewrite net_calls_app, net_calls_before.
  - right. right. exists username, (drawn h (candidates tweets used_tweets)).
    rewrite net_calls_app, net_calls_before, Hpost. done.
  - right. right. exists username, (drawn h (candidates tweets used_tweets)).
    rewrite net_calls_app, net_calls_before, Hpost. done.
  - by left.
  - by left.
  - right. right. exists username, (drawn h (candidates tweets used_tweets)).
    rewrite net_calls_app, net_calls_before, Hpost. done.
Qed.

(** X10 (the pool is never rewritten): when [tweets.json] holds a JSON
    object all of whose strings UTF-8 can encode, after any run it still
    holds a JSON object, and every field other than [used_tweets], the pool
    among them, has the value it had. *)
Theorem run_keeps_the_pool (h : host) (fs : gmap string content) (d : gmap string json)
    (Hfile : fs !! tweets_json = Some (Document (JObj d)))
    (Hclean : encodable (JObj d) = true) :
  exists d',
    files (run h fs).2 !! tweets_json = Some (Document (JObj d'))
    /\ (forall key, key <> "used_tweets" -> d' !! key = d !! key).
Proof.
  by_run_cases h fs; cbn [files];
    try (exists d; split; [exact Hfile|done]);
    try congruence.
  - destruct Hsel as (_ & Hf & _).
    assert (d0 = d) as -> by congruence.
    eexists. split; [by rewrite lookup_insert_eq|].
    intros key Hkey. by rewrite lookup_insert_ne.
  - destruct Hsel as (_ & Hf & Ht0 & Hne & Hu0).
    assert (d0 = d) as -> by congruence.
    rewrite (grown_data_encodable h d tweets0 used0 Hclean Ht0 Hne Hu0) in Hdata.
    discriminate Hdata.
Qed.

Lemma run_keeps_the_pool_witness :
  annotated_files !! tweets_json
    = Some (Document (JObj (<["owner" := JStr "tessa"]> demo_data)))
  /\ encodable (JObj (<["owner" := JStr "tessa"]> demo_data)) = true
  /\ exists d',
       files (run demo_host annotated_files).2 !! tweets_json = Some (Document (JObj d'))
       /\ d' !! "tweets" = Some (of_strings ["A"; "B"])
       /\ d' !! "owner" = Some (JStr "tessa").
Proof.
  assert (annotated_files !! tweets_json
          = Some (Document (JObj (<["owner" := JStr "tessa"]> demo_data)))) as Hfile
    by reflexivity.
  assert (encodable (JObj (<["owner" := JStr "tessa"]> demo_data)) = true) as Hclean
    by (vm_compute; reflexivity).
  split; [exact Hfile|]. split; [exact Hclean|].
  destruct (run_keeps_the_pool demo_host annotated_files _ Hfile Hclean)
    as (d' & Hd' & Hkeep).
  exists d'. split; [exact Hd'|].
  rewrite (Hkeep "tweets"), (Hkeep "owner") by discriminate. split; reflexivity.
Defined.

(** ** The used list from run to run *)

Lemma stored_inv fs key l :
  stored fs key = Some l ->
  exists d, fs !! tweets_json = Some (Document (JObj d))
            /\ as_strings (dict_get d key (JArr [])) = Some l.
Proof.
  unfold stored. destruct (fs !! tweets_json) as [[| | | |[]]|]; try discriminate. eauto.
Qed.

Lemma stored_saved_used fs d l :
  stored (<[tweets_json := Document (JObj (<["used_tweets" := of_strings l]> d))]> fs)
    "used_tweets" = Some l.
Proof.
  unfold stored. rewrite lookup_insert_eq, dict_get_insert_eq.
  apply as_strings_of_strings.
Qed.

Lemma stored_saved_other fs d l key :
  key <> "used_tweets" ->
  stored (<[tweets_json := Document (JObj (<["used_tweets" := of_strings l]> d))]> fs) key
  = as_strings (dict_get d key (JArr [])).
Proof.
  intros Hkey. unfold stored. by rewrite lookup_insert_eq, dict_get_insert_ne.
Qed.

Lemma clean_file_inv fs d :
  clean_file fs -> fs !! tweets_json = Some (Document (JObj d)) ->
  encodable (JObj d) = true.
Proof. intros Hclean Hfile. by apply Hclean. Qed.

(** What a run leaves stored, from what it found stored. *)
Lemma run_stored h fs tweets used_tweets :
  clean_file fs ->
  stored fs "tweets" = Some tweets ->
  stored fs "used_tweets" = Some used_tweets ->
  stored (files (run h fs).2) "tweets" = Some tweets
  /\ (stored (files (run h fs).2) "used_tweets" = Some used_tweets
      \/ (tweets <> []
          /\ stored (files (run h fs).2) "used_tweets"
             = Some (carried_used tweets used_tweets
                     ++ [drawn h (candidates tweets used_tweets)]))).
Proof.
  intros Hclean Ht Hu.
  destruct (stored_inv _ _ _ Ht) as (d & Hfile & Htweets).
  destruct (stored_inv _ _ _ Hu) as (d' & Hfile' & Hused).
  assert (d' = d) as -> by congruence. clear Hfile'.
  pose proof (clean_file_inv fs d Hclean Hfile) as Hd.
  by_run_cases h fs; cbn [files];
    try (split; [exact Ht|left; exact Hu]);
    try congruence.
  - destruct Hsel as (_ & Hf & Ht0 & Hne & Hu0).
    assert (d0 = d) as -> by congruence.
    assert (tweets0 = tweets) as -> by congruence.
    assert (used0 = used_tweets) as -> by congruence.
    split.
    + by rewrite stored_saved_other.
    + right. split; [done|]. apply stored_saved_used.
  - destruct Hsel as (_ & Hf & Ht0 & Hne & Hu0).
    assert (d0 = d) as -> by congruence.
    rewrite (grown_data_encodable h d tweets0 used0 Hd Ht0 Hne Hu0) in Hdata.
    discriminate Hdata.
Qed.

(** A run never leaves a document with a string that cannot be encoded
    where it found none. *)
Lemma run_clean_file h fs : clean_file fs -> clean_file (files (run h fs).2).
Proof.
  intros Hclean.
  by_run_cases h fs; cbn [files]; try done;
    intros v' Hv'; rewrite lookup_insert_eq in Hv'; try discriminate Hv';
    injection Hv' as <-.
  - apply sample_data_encodable.
  - exact Hdata.
Qed.

Lemma published_before h tweets used_tweets :
  published ([start_line h; FileRead tweets_json] ++ reset_notice tweets used_tweets) = [].
Proof. unfold reset_notice. by destruct (available_tweets tweets used_tweets). Qed.

(** A run on a serving host: what it publishes and what it leaves. *)
Lemma run_stored_serving h fs tweets used_tweets :
  serving h ->
  clean_file fs ->
  stored fs "tweets" = Some tweets ->
  tweets <> [] ->
  stored fs "used_tweets" = Some used_tweets ->
  stored (files (run h fs).2) "tweets" = Some tweets
  /\ stored (files (run h fs).2) "used_tweets"
     = Some (carried_used tweets used_tweets ++ [drawn h (candidates tweets used_tweets)])
  /\ published (trace (run h fs).2) = [drawn h (candidates tweets used_tweets)]
  /\ (run h fs).1 = Returns tt.
Proof.
  intros (Hmiss & [username Hme] & Hpost) Hclean Ht Hne Hu.
  destruct (stored_inv _ _ _ Ht) as (d & Hfile & Htweets).
  destruct (stored_inv _ _ _ Hu) as (d' & Hfile' & Hused).
  assert (d' = d) as -> by congruence. clear Hfile'.
  pose proof (clean_file_inv fs d Hclean Hfile) as Hd.
  destruct (Hpost (drawn h (candidates tweets used_tweets))) as [id Hid].
  rewrite (run_loaded h fs d tweets used_tweets Hmiss Hfile Htweets Hne Hused).
  cbv zeta. rewrite Hme, Hid, (grown_data_encodable h d tweets used_tweets Hd Htweets Hne Hused).
  cbn [fst snd files trace]. split; [|split; [|split]].
  - by rewrite stored_saved_other.
  - apply stored_saved_used.
  - unfold published. rewrite omap_app. fold (published
      ([start_line h; FileRead tweets_json] ++ reset_notice tweets used_tweets)).
    by rewrite published_before.
  - done.
Qed.

(** One more element keeps the used list inside the pool and free of
    repetitions. *)
Lemma grown_used_invariant h tweets used_tweets :
  tweets <> [] ->
  used_tweets ⊆ tweets ->
  NoDup used_tweets ->
  carried_used tweets used_tweets ++ [drawn h (candidates tweets used_tweets)] ⊆ tweets
  /\ NoDup (carried_used tweets used_tweets ++ [drawn h (candidates tweets used_tweets)]).
Proof.
  intros Hne Hsub Hnodup.
  pose proof (drawn_candidate h tweets used_tweets Hne) as Hin.
  pose proof (candidates_in_pool _ _ _ Hin) as Hpool.
  unfold carried_used, candidates in *.
  destruct (available_tweets tweets used_tweets) as [|a l] eqn:Hav.
  - split.
    + intros x Hx. apply list_elem_of_singleton in Hx as ->. done.
    + apply NoDup_singleton.
  - rewrite <- Hav in Hin, Hpool |- *. apply elem_of_available_tweets in Hin as [_ Hfresh].
    split.
    + intros x Hx. apply elem_of_app in Hx as [Hx | Hx]; [by apply Hsub|].
      apply list_elem_of_singleton in Hx as ->. done.
    + apply NoDup_app. split; [done|]. split; [|apply NoDup_singleton].
      intros x Hx Hx'. apply list_elem_of_singleton in Hx' as ->. done.
Qed.

(** X11 (the used list stays a repetition-free part of the pool): take
    a [tweets.json] all of whose strings UTF-8 can encode.  If the used
    list stored in it has no repeated entry and only entries of the stored
    pool, the same holds of what any run leaves stored, whatever the host
    answers; the stored pool is the same. *)
Theorem run_keeps_used_within_pool (h : host) (fs : gmap string content)
    (tweets used_tweets : list string)
    (Hclean : clean_file fs)
    (Hpool : stored fs "tweets" = Some tweets)
    (Hused : stored fs "used_tweets" = Some used_tweets)
    (Hsub : used_tweets ⊆ tweets)
    (Hnodup : NoDup used_tweets) :
  exists used',
    stored (files (run h fs).2) "tweets" = Some tweets
    /\ stored (files (run h fs).2) "used_tweets" = Some used'
    /\ used' ⊆ tweets
    /\ NoDup used'.
Proof.
  destruct (run_stored h fs tweets used_tweets Hclean Hpool Hused) as [Ht [Hu | [Hne Hu]]].
  - by exists used_tweets.
  - destruct (grown_used_invariant h tweets used_tweets Hne Hsub Hnodup) as [Hsub' Hnodup'].
    eexists. eauto.
Qed.

Lemma clean_file_singleton v :
  encodable v = true -> clean_file {[ tweets_json := Document v ]}.
Proof.
  intros Hv v' Hv'. rewrite lookup_singleton_eq in Hv'. by injection Hv' as <-.
Qed.

Lemma demo_files_clean : clean_file demo_files.
Proof. apply clean_file_singleton. vm_compute. reflexivity. Defined.

Lemma run_keeps_used_within_pool_witness :
  clean_file demo_files
  /\ stored demo_files "tweets" = Some ["A"; "B"]
  /\ stored demo_files "used_tweets" = Some ["A"]
  /\ ["A"] ⊆ ["A"; "B"]
  /\ NoDup ["A"]
  /\ exists used',
       stored (files (run demo_host demo_files).2) "tweets" = Some ["A"; "B"]
       /\ stored (files (run demo_host demo_files).2) "used_tweets" = Some used'
       /\ used' ⊆ ["A"; "B"]
       /\ NoDup used'.
Proof.
  assert (stored demo_files "tweets" = Some ["A"; "B"]) as Hpool by reflexivity.
  assert (stored demo_files "used_tweets" = Some ["A"]) as Hused by reflexivity.
  assert (["A"] ⊆ ["A"; "B"]) as Hsub.
  { intros x Hx. apply list_elem_of_singleton in Hx as ->. apply list_elem_of_here. }
  assert (NoDup ["A"]) as Hnodup by apply NoDup_singleton.
  split; [exact demo_files_clean|].
  split; [exact Hpool|]. split; [exact Hused|]. split; [exact Hsub|]. split; [exact Hnodup|].
  exact (run_keeps_used_within_pool demo_host demo_files _ _
           demo_files_clean Hpool Hused Hsub Hnodup).
Defined.

Lemma unused_element_left (tweets used_tweets : list string) :
  NoDup tweets ->
  length used_tweets < length tweets ->
  available_tweets tweets used_tweets <> [].
Proof.
  intros Hnodup Hlen Hav.
  assert (forall x, x ∈ tweets -> x ∈ used_tweets) as Hall.
  { intros x Hx. destruct (decide (x ∈ used_tweets)) as [|Hout]; [done|].
    assert (x ∈ available_tweets tweets used_tweets) as Hin
      by (by apply elem_of_available_tweets).
    rewrite Hav in Hin. by apply elem_of_nil in Hin. }
  pose proof (submseteq_length _ _ (NoDup_submseteq _ _ Hnodup Hall)). lia.
Qed.

Lemma runs_fill_the_used_list tweets :
  NoDup tweets ->
  forall hs fs used_tweets,
    Forall serving hs ->
    clean_file fs ->
    stored fs "tweets" = Some tweets ->
    stored fs "used_tweets" = Some used_tweets ->
    used_tweets ⊆ tweets ->
    NoDup used_tweets ->
    length used_tweets + length hs <= length tweets ->
    stored (runs hs fs) "tweets" = Some tweets
    /\ stored (runs hs fs) "used_tweets" = Some (used_tweets ++ published_over hs fs)
    /\ used_tweets ++ published_over hs fs ⊆ tweets
    /\ NoDup (used_tweets ++ published_over hs fs)
    /\ length (published_over hs fs) = length hs.
Proof.
  intros Hpool_nodup hs.
  induction hs as [|h hs IH]; intros fs used_tweets Hserving Hclean Ht Hu Hsub Hnodup Hlen.
  - cbn [runs published_over length]. by rewrite app_nil_r.
  - apply Forall_cons in Hserving as [Hh Hhs]. cbn [length] in Hlen.
    assert (available_tweets tweets used_tweets <> []) as Hav
      by (apply unused_element_left; [done|lia]).
    assert (tweets <> []) as Hne.
    { intros ->. by apply Hav. }
    destruct (run_stored_serving h fs tweets used_tweets Hh Hclean Ht Hne Hu)
      as (Ht' & Hu' & Hpub & _).
    destruct (grown_used_invariant h tweets used_tweets Hne Hsub Hnodup)
      as [Hsub' Hnodup'].
    assert (carried_used tweets used_tweets = used_tweets) as Hcarried.
    { unfold carried_used. by destruct (available_tweets tweets used_tweets). }
    rewrite Hcarried in Hu', Hsub', Hnodup'.
    destruct (IH (files (run h fs).2) _ Hhs (run_clean_file h fs Hclean) Ht' Hu' Hsub' Hnodup')
      as (H1 & H2 & H3 & H4 & H5).
    { rewrite length_app. cbn [length]. lia. }
    cbn [runs published_over length]. rewrite Hpub.
    rewrite <- !app_assoc in H2, H3, H4. cbn [app] in H2, H3, H4.
    repeat split; try done. cbn [app length]. by rewrite H5.
Qed.

(** X12 (every message once before any repeat): start from a
    [tweets.json] all of whose strings UTF-8 can encode, with a pool
    without repeated entries and an empty used list, and let the script run
    as many times as the pool has messages, each time on a host whose
    credentials are set and whose service accepts the calls.  Then the
    messages published over these runs, one per run, are a rearrangement of
    the pool: every message was published exactly once, whatever the random
    draws were; and the used list stored at the end is that list of
    published messages, in the order of publication. *)
Theorem pool_is_published_once_each (hs : list host) (fs : gmap string content)
    (tweets : list string)
    (Hclean : clean_file fs)
    (Hnodup : NoDup tweets)
    (Hpool : stored fs "tweets" = Some tweets)
    (Hfresh : stored fs "used_tweets" = Some [])
    (Hserving : Forall serving hs)
    (Hcount : length hs = length tweets) :
  published_over hs fs ≡ₚ tweets
  /\ length (published_over hs fs) = length hs
  /\ stored (runs hs fs) "used_tweets" = Some (published_over hs fs)
  /\ stored (runs hs fs) "tweets" = Some tweets.
Proof.
  destruct (runs_fill_the_used_list tweets Hnodup hs fs [] Hserving Hclean Hpool Hfresh)
    as (Ht & Hu & Hsub & Hnd & Hlen).
  - intros x Hx. by apply elem_of_nil in Hx.
  - apply NoDup_nil_2.
  - cbn [length]. lia.
  - cbn [app] in Hu, Hsub, Hnd. split; [|done].
    apply submseteq_length_Permutation; [by apply NoDup_submseteq|]. lia.
Qed.

Lemma fresh_files_clean : clean_file fresh_files.
Proof. apply clean_file_singleton. vm_compute. reflexivity. Defined.

Lemma drawing_host_serving n : serving (drawing_host n).
Proof.
  split; [reflexivity|]. split; [by exists "tessa"|]. intros text. by exists "1".
Defined.

Lemma pool_is_published_once_each_witness :
  clean_file fresh_files
  /\ NoDup ["A"; "B"]
  /\ stored fresh_files "tweets" = Some ["A"; "B"]
  /\ stored fresh_files "used_tweets" = Some []
  /\ Forall serving [drawing_host 1; drawing_host 5]
  /\ length [drawing_host 1; drawing_host 5] = length ["A"; "B"]
  /\ published_over [drawing_host 1; drawing_host 5] fresh_files ≡ₚ ["A"; "B"]
  /\ stored (runs [drawing_host 1; drawing_host 5] fresh_files) "used_tweets"
     = Some (published_over [drawing_host 1; drawing_host 5] fresh_files).
Proof.
  assert (NoDup ["A"; "B"]) as Hnodup.
  { apply NoDup_cons. split; [|apply NoDup_singleton].
    intros Hin. apply list_elem_of_singleton in Hin. discriminate Hin. }
  assert (stored fresh_files "tweets" = Some ["A"; "B"]) as Hpool by reflexivity.
  assert (stored fresh_files "used_tweets" = Some []) as Hfresh by reflexivity.
  assert (Forall serving [drawing_host 1; drawing_host 5]) as Hserving.
  { repeat constructor; apply drawing_host_serving. }
  split; [exact fresh_files_clean|].
  split; [exact Hnodup|]. split; [exact Hpool|]. split; [exact Hfresh|].
  split; [exact Hserving|]. split; [reflexivity|].
  destruct (pool_is_published_once_each [drawing_host 1; drawing_host 5] fresh_files
              ["A"; "B"] fresh_files_clean Hnodup Hpool Hfresh Hserving eq_refl)
    as (Hperm & _ & Hstored & _).
  split; [exact Hperm|exact Hstored].
Defined.

(** X13 (starting over): take a [tweets.json] all of whose strings UTF-8
    can encode.  When every pool message is already in the stored used
    list, a run on a serving host publishes some pool message, and that
    message only, and leaves it alone as the stored used list. *)
Theorem exhausted_pool_starts_over (h : host) (fs : gmap string content)
    (tweets used_tweets : list string)
    (Hserving : serving h)
    (Hclean : clean_file fs)
    (Hpool : stored fs "tweets" = Some tweets)
    (Hne : tweets <> [])
    (Hused : stored fs "used_tweets" = Some used_tweets)
    (Hall : forall t, t ∈ tweets -> t ∈ used_tweets) :
  exists selected,
    selected ∈ tweets
    /\ CreateTweet selected (net_create_tweet h (make_client h) selected)
         ∈ trace (run h fs).2
    /\ published (trace (run h fs).2) = [selected]
    /\ stored (files (run h fs).2) "used_tweets" = Some [selected].
Proof.
  assert (available_tweets tweets used_tweets = []) as Hav.
  { destruct (available_tweets tweets used_tweets) as [|a l] eqn:Hav; [done|].
    assert (a ∈ available_tweets tweets used_tweets) as Hin
      by (rewrite Hav; apply list_elem_of_here).
    apply elem_of_available_tweets in Hin as [Hin Hout]. destruct Hout. by apply Hall. }
  destruct (run_stored_serving h fs tweets used_tweets Hserving Hclean Hpool Hne Hused)
    as (_ & Hu & Hpub & _).
  assert (carried_used tweets used_tweets = []) as Hcarried
    by (unfold carried_used; by rewrite Hav).
  rewrite Hcarried in Hu.
  exists (drawn h (candidates tweets used_tweets)).
  split; [|split; [|split; [exact Hpub|exact Hu]]].
  - eapply candidates_in_pool, drawn_candidate, Hne.
  - destruct Hserving as (Hmiss & [username Hme] & Hpost).
    destruct (stored_inv _ _ _ Hpool) as (d & Hfile & Htweets).
    destruct (stored_inv _ _ _ Hused) as (d' & Hfile' & Hused').
    assert (d' = d) as -> by congruence.
    rewrite (run_loaded h fs d tweets used_tweets Hmiss Hfile Htweets Hne Hused').
    cbv zeta. rewrite Hme.
    destruct (net_create_tweet h (make_client h) _) as [id|msg];
      [destruct (encodable _)|]; cbn [snd trace];
      apply elem_of_app; right; rewrite !elem_of_cons; auto.
Qed.

Lemma exhausted_files_clean : clean_file exhausted_files.
Proof. apply clean_file_singleton. vm_compute. reflexivity. Defined.

Lemma exhausted_pool_starts_over_witness :
  serving demo_host
  /\ clean_file exhausted_files
  /\ stored exhausted_files "tweets" = Some ["A"; "B"]
  /\ ["A"; "B"] <> ([] : list string)
  /\ stored exhausted_files "used_tweets" = Some ["A"; "B"]
  /\ (forall t : string, t ∈ ["A"; "B"] -> t ∈ ["A"; "B"])
  /\ exists selected,
       selected ∈ ["A"; "B"]
       /\ published (trace (run demo_host exhausted_files).2) = [selected]
       /\ stored (files (run demo_host exhausted_files).2) "used_tweets" = Some [selected].
Proof.
  assert (serving demo_host) as Hserving by apply (drawing_host_serving 0).
  assert (stored exhausted_files "tweets" = Some ["A"; "B"]) as Hpool by reflexivity.
  assert (stored exhausted_files "used_tweets" = Some ["A"; "B"]) as Hused by reflexivity.
  assert (["A"; "B"] <> ([] : list string)) as Hne by discriminate.
  split; [exact Hserving|]. split; [exact exhausted_files_clean|].
  split; [exact Hpool|]. split; [exact Hne|].
  split; [exact Hused|]. split; [auto|].
  destruct (exhausted_pool_starts_over demo_host exhausted_files _ _
              Hserving exhausted_files_clean Hpool Hne Hused (fun t Ht => Ht))
    as (selected & Hin & _ & Hpub & Hleft).
  exists selected. split; [exact Hin|]. split; [exact Hpub|exact Hleft].
Defined.

(** ** The draw, the credentials and the first runs *)

(** X14 (no message is out of reach): every message of the list the
    selector draws from (the unused pool messages, or the whole pool after a
    reset) is the one selected for some value of the random source. *)
Theorem every_candidate_can_be_drawn (h : host) (tweets used_tweets : list string)
    (x : string) (st : state)
    (Hcandidate : x ∈ candidates tweets used_tweets) :
  exists n,
    n < length (candidates tweets used_tweets)
    /\ selector (with_rand n h) tweets used_tweets st
       = (Returns (x, carried_used tweets used_tweets),
          extend st (reset_notice tweets used_tweets)).
Proof.
  apply list_elem_of_lookup in Hcandidate as [n Hn].
  pose proof (lookup_lt_Some _ _ _ Hn) as Hlt.
  exists n. split; [done|].
  assert (tweets <> []) as Hne.
  { intros ->. unfold candidates, available_tweets in Hn. by destruct n. }
  destruct (selector_total (with_rand n h) tweets used_tweets st Hne) as [-> _].
  unfold drawn. cbn [rand with_rand]. by rewrite Nat.mod_small, Hn.
Qed.

Lemma every_candidate_can_be_drawn_witness :
  "B" ∈ candidates ["A"; "B"; "C"] ["A"]
  /\ exists n,
       n < length (candidates ["A"; "B"; "C"] ["A"])
       /\ selector (with_rand n demo_host) ["A"; "B"; "C"] ["A"]
            {| files := ∅; trace := [] |}
          = (Returns ("B", carried_used ["A"; "B"; "C"] ["A"]),
             extend {| files := ∅; trace := [] |} (reset_notice ["A"; "B"; "C"] ["A"])).
Proof.
  assert ("B" ∈ candidates ["A"; "B"; "C"] ["A"]) as Hin.
  { assert (candidates ["A"; "B"; "C"] ["A"] = ["B"; "C"]) as -> by reflexivity.
    apply list_elem_of_here. }
  split; [exact Hin|].
  exact (every_candidate_can_be_drawn demo_host _ _ "B" {| files := ∅; trace := [] |} Hin).
Defined.

Lemma py_not_false x : py_not x = false <-> present x.
Proof.
  unfold present. destruct x as [[|c s]|]; simpl; split; try done.
  - intros (c & s & H). discriminate H.
  - eauto.
  - intros (c & s & H). discriminate H.
Qed.

Lemma missing_vars_nil h :
  missing_vars h = [] <-> forall var, var ∈ required_vars -> present (os_getenv h var).
Proof.
  split.
  - intros Hnil var Hreq. apply py_not_false.
    destruct (py_not (os_getenv h var)) eqn:Hnot; [|done].
    assert (var ∈ missing_vars h) as Hin by (by apply elem_of_missing_vars).
    rewrite Hnil in Hin. by apply elem_of_nil in Hin.
  - intros Hall. destruct (missing_vars h) as [|var vars] eqn:Hmiss; [done|].
    assert (var ∈ missing_vars h) as Hin by (rewrite Hmiss; apply list_elem_of_here).
    apply elem_of_missing_vars in Hin as [Hreq Hnot].
    apply Hall, py_not_false in Hreq. congruence.
Qed.

(** X15 (the file is read exactly when the credentials are complete): a
    run opens [tweets.json] if and only if each of the five required
    variables is set to a string that is not empty. *)
Theorem file_is_read_iff_credentials_complete (h : host) (fs : gmap string content) :
  FileRead tweets_json ∈ trace (run h fs).2
  <-> (forall var, var ∈ required_vars -> present (os_getenv h var)).
Proof.
  rewrite <- missing_vars_nil. split.
  - intros Hin. destruct (missing_vars h) as [|var vars] eqn:Hmiss; [done|].
    rewrite run_missing_vars in Hin by (by rewrite Hmiss). cbn [snd trace] in Hin.
    assert (Forall (fun e => is_io e = false) (start_line h :: missing_report h)) as Hall
      by (constructor; [done|apply missing_report_prints]).
    rewrite Forall_forall in Hall. by specialize (Hall _ Hin).
  - intros Hmiss.
    destruct (run_cases h fs); cbn [trace app]; try done;
      apply list_elem_of_further, list_elem_of_here.
Qed.

(** X16 (the service only ever sees complete credentials): in a run that
    makes any network call, the client was built from five credentials that
    are all set and not empty, with waiting on rate limits switched on. *)
Theorem network_calls_carry_all_credentials (h : host) (fs : gmap string content)
    (e : event)
    (Hin : e ∈ trace (run h fs).2)
    (Hnet : is_net e = true) :
  present (consumer_key (make_client h))
  /\ present (consumer_secret (make_client h))
  /\ present (access_token (make_client h))
  /\ present (access_token_secret (make_client h))
  /\ present (bearer_token (make_client h))
  /\ wait_on_rate_limit (make_client h) = true.
Proof.
  destruct (run_reaches_network h fs _ _ e (surjective_pairing _) Hin Hnet)
    as (d & tweets & used_tweets & Hmiss & _).
  pose proof (proj1 (missing_vars_nil h) Hmiss) as Hall.
  unfold make_client, API_KEY, API_SECRET, ACCESS_TOKEN, ACCESS_TOKEN_SECRET, BEARER_TOKEN.
  cbn [consumer_key consumer_secret access_token access_token_secret bearer_token
       wait_on_rate_limit].
  repeat split; try (apply Hall; unfold required_vars; rewrite !elem_of_cons; auto 10).
Qed.

Lemma network_calls_carry_all_credentials_witness :
  GetMe (inl "tessa") ∈ trace (run demo_host demo_files).2
  /\ is_net (GetMe (inl "tessa")) = true
  /\ present (bearer_token (make_client demo_host)).
Proof.
  assert (GetMe (inl "tessa") ∈ trace (run demo_host demo_files).2) as Hin
    by in_computed_list.
  split; [exact Hin|]. split; [reflexivity|].
  exact (proj1 (proj2 (proj2 (proj2 (proj2
           (network_calls_carry_all_credentials demo_host demo_files _ Hin eq_refl)))))).
Defined.

(** X17 (an empty pool ends the run early): with the credentials in
    place and a [tweets.json] whose stored pool is the empty list (the key
    may be absent), the run prints that no tweets were found and returns
    with the file system untouched and no network call, whatever the
    [used_tweets] field holds. *)
Theorem empty_pool_stops_the_run (h : host) (fs : gmap string content)
    (Hmiss : missing_vars h = [])
    (Hpool : stored fs "tweets" = Some []) :
  run h fs =
    (Returns tt,
     {| files := fs;
        trace := [Print ("Twitter Bot running at " +:+ now h); FileRead tweets_json;
                  Print "No tweets found in tweets.json"] |}).
Proof.
  destruct (stored_inv _ _ _ Hpool) as (d & Hfile & Htweets).
  by apply (run_empty_pool h fs d).
Qed.

Lemma empty_pool_stops_the_run_witness :
  missing_vars demo_host = []
  /\ stored poolless_files "tweets" = Some []
  /\ run demo_host poolless_files =
       (Returns tt,
        {| files := poolless_files;
           trace := [Print "Twitter Bot running at 2024-01-01 09:00:00";
                     FileRead tweets_json;
                     Print "No tweets found in tweets.json"] |}).
Proof.
  assert (missing_vars demo_host = []) as Hmiss by reflexivity.
  assert (stored poolless_files "tweets" = Some []) as Hpool by reflexivity.
  split; [exact Hmiss|]. split; [exact Hpool|].
  exact (empty_pool_stops_the_run demo_host poolless_files Hmiss Hpool).
Defined.

(** X18 (the first two runs): started with no [tweets.json] and the
    credentials in place, the first run only creates the sample file and
    publishes nothing; a second run on a serving host then publishes
    exactly one message, one of the eight sample messages, and stores it as
    the whole used list, the sample pool still in place. *)
Theorem second_run_publishes_a_sample (h1 h2 : host) (fs : gmap string content)
    (Hfirst : missing_vars h1 = [])
    (Hsecond : serving h2)
    (Hnofile : fs !! tweets_json = None) :
  files (run h1 fs).2 = <[tweets_json := Document (JObj sample_data)]> fs
  /\ net_calls (trace (run h1 fs).2) = []
  /\ exists selected,
       selected ∈ sample_tweets
       /\ published_over [h1; h2] fs = [selected]
       /\ CreateTweet selected (net_create_tweet h2 (make_client h2) selected)
            ∈ trace (run h2 (files (run h1 fs).2)).2
       /\ stored (runs [h1; h2] fs) "used_tweets" = Some [selected]
       /\ stored (runs [h1; h2] fs) "tweets" = Some sample_tweets.
Proof.
  rewrite (run_no_file h1 fs Hfirst Hnofile). cbn [snd files trace].
  split; [done|]. split; [done|].
  cbn [runs published_over]. rewrite (run_no_file h1 fs Hfirst Hnofile).
  cbn [snd files trace].
  set (fs1 := <[tweets_json := Document (JObj sample_data)]> fs).
  assert (stored fs1 "tweets" = Some sample_tweets) as Hpool.
  { unfold stored, fs1. rewrite lookup_insert_eq. reflexivity. }
  assert (stored fs1 "used_tweets" = Some []) as Hused.
  { unfold stored, fs1. rewrite lookup_insert_eq. reflexivity. }
  assert (clean_file fs1) as Hclean.
  { intros v Hv. unfold fs1 in Hv. rewrite lookup_insert_eq in Hv.
    injection Hv as <-. apply sample_data_encodable. }
  assert (sample_tweets <> []) as Hne by discriminate.
  destruct (run_stored_serving h2 fs1 sample_tweets [] Hsecond Hclean Hpool Hne Hused)
    as (Ht & Hu & Hpub & _).
  assert (carried_used sample_tweets [] = []) as Hcarried.
  { unfold carried_used. by destruct (available_tweets sample_tweets []). }
  rewrite Hcarried in Hu.
  exists (drawn h2 (candidates sample_tweets [])).
  split; [eapply candidates_in_pool, drawn_candidate, Hne|].
  split; [by rewrite Hpub|]. split; [|by split].
  destruct Hsecond as (Hmiss & [username Hme] & Hpost).
  destruct (stored_inv _ _ _ Hpool) as (d & Hfile & Htweets).
  destruct (stored_inv _ _ _ Hused) as (d' & Hfile' & Hused').
  assert (d' = d) as -> by congruence.
  rewrite (run_loaded h2 fs1 d sample_tweets [] Hmiss Hfile Htweets Hne Hused').
  cbv zeta. rewrite Hme.
  destruct (net_create_tweet h2 (make_client h2) _) as [id'|msg];
    [destruct (encodable _)|]; cbn [snd trace];
    apply elem_of_app; right; rewrite !elem_of_cons; auto.
Qed.

Lemma second_run_publishes_a_sample_witness :
  missing_vars demo_host = []
  /\ serving (drawing_host 3)
  /\ (∅ : gmap string content) !! tweets_json = None
  /\ exists selected,
       selected ∈ sample_tweets
       /\ published_over [demo_host; drawing_host 3] ∅ = [selected]
       /\ stored (runs [demo_host; drawing_host 3] ∅) "used_tweets" = Some [selected].
Proof.
  assert (missing_vars demo_host = []) as Hfirst by reflexivity.
  assert ((∅ : gmap string content) !! tweets_json = None) as Hnofile by reflexivity.
  split; [exact Hfirst|]. split; [exact (drawing_host_serving 3)|].
  split; [exact Hnofile|].
  destruct (second_run_publishes_a_sample demo_host (drawing_host 3) ∅
              Hfirst (drawing_host_serving 3) Hnofile)
    as (_ & _ & selected & Hin & Hpub & _ & Hused & _).
  exists selected. split; [exact Hin|]. split; [exact Hpub|exact Hused].
Defined.

(** ** The used list as a set, and runs that publish nothing *)

Lemma available_tweets_same_members tweets used1 used2 :
  (forall x, x ∈ used1 <-> x ∈ used2) ->
  available_tweets tweets used1 = available_tweets tweets used2.
Proof.
  intros Hsame. unfold available_tweets. apply list_filter_iff.
  intros x. by rewrite Hsame.
Qed.

(** X19 (the used list counts as a set): two used lists with the same
    members, in whatever order and with whatever repetitions, leave the
    same messages available, and the selector picks the same message from
    them and prints the same. *)
Theorem used_list_counts_as_a_set (h : host) (tweets used1 used2 : list string)
    (st : state)
    (Hsame : forall x, x ∈ used1 <-> x ∈ used2) :
  available_tweets tweets used1 = available_tweets tweets used2
  /\ (tweets <> [] ->
      exists selected,
        selector h tweets used1 st
          = (Returns (selected, carried_used tweets used1),
             extend st (reset_notice tweets used1))
        /\ selector h tweets used2 st
          = (Returns (selected, carried_used tweets used2),
             extend st (reset_notice tweets used1))).
Proof.
  pose proof (available_tweets_same_members tweets _ _ Hsame) as Hav.
  split; [done|]. intros Hne.
  exists (drawn h (candidates tweets used1)).
  destruct (selector_total h tweets used1 st Hne) as [-> _].
  destruct (selector_total h tweets used2 st Hne) as [-> _].
  unfold candidates, reset_notice. by rewrite Hav.
Qed.

Lemma used_list_counts_as_a_set_witness :
  (forall x : string, x ∈ ["A"; "C"; "A"] <-> x ∈ ["C"; "A"])
  /\ available_tweets ["A"; "B"; "C"] ["A"; "C"; "A"]
     = available_tweets ["A"; "B"; "C"] ["C"; "A"].
Proof.
  assert (forall x : string, x ∈ ["A"; "C"; "A"] <-> x ∈ ["C"; "A"]) as Hsame.
  { intros x. rewrite !elem_of_cons, !elem_of_nil. tauto. }
  split; [exact Hsame|].
  exact (proj1 (used_list_counts_as_a_set demo_host ["A"; "B"; "C"] _ _
                  {| files := ∅; trace := [] |} Hsame)).
Defined.

Lemma refused_run_files h fs :
  refusing h -> is_Some (fs !! tweets_json) -> files (run h fs).2 = fs.
Proof.
  intros Hrefusing [c Hc].
  by_run_cases h fs; cbn [files]; try done.
  - congruence.
  - destruct Hrefusing as [[msg Hfail] | Hfail]; [congruence|].
    destruct (Hfail (drawn h (candidates tweets0 used0))) as [msg Hmsg]. congruence.
  - destruct Hrefusing as [[msg Hfail] | Hfail]; [congruence|].
    destruct (Hfail (drawn h (candidates tweets0 used0))) as [msg Hmsg]. congruence.
Qed.

(** X20 (a refused run leaves no mark): on a host whose service refuses
    (authentication fails, or every publish does) a run leaves an existing
    [tweets.json], and with it the whole file system, exactly as found; so
    the runs that follow go as if the refused run had never happened, and
    the message it had selected is not in the used list. *)
Theorem refused_run_leaves_no_mark (h : host) (later : list host)
    (fs : gmap string content)
    (Hrefusing : refusing h)
    (Hexists : is_Some (fs !! tweets_json)) :
  files (run h fs).2 = fs
  /\ runs (h :: later) fs = runs later fs.
Proof.
  pose proof (refused_run_files h fs Hrefusing Hexists) as Hfiles.
  split; [done|]. cbn [runs]. by rewrite Hfiles.
Qed.

Lemma refused_run_leaves_no_mark_witness :
  refusing rejecting_host
  /\ is_Some (demo_files !! tweets_json)
  /\ runs [rejecting_host; demo_host] demo_files = runs [demo_host] demo_files.
Proof.
  assert (refusing rejecting_host) as Hrefusing by (left; by exists "401 Unauthorized").
  assert (is_Some (demo_files !! tweets_json)) as Hexists by (eexists; reflexivity).
  split; [exact Hrefusing|]. split; [exact Hexists|].
  exact (proj2 (refused_run_leaves_no_mark rejecting_host [demo_host] demo_files
                  Hrefusing Hexists)).
Defined.

(** ** After a dump that failed *)

(** X21 (a failed save costs the pool): when the file holds a JSON
    object and the object with the list to save set cannot be encoded, the
    writer raises [UnicodeEncodeError] and leaves the cut-off text.  The
    loader then reports invalid JSON and returns two empty lists, changing
    nothing; and the next save of a list that can be encoded starts from
    the empty base object, so the file it writes has an empty pool. *)
Theorem failed_save_costs_the_pool (used_tweets next : list string) (filename : string)
    (st : state) (d : gmap string json)
    (Hfile : files st !! filename = Some (Document (JObj d)))
    (Hname : filename <> EmptyString)
    (Hbad : encodable (JObj (<["used_tweets" := of_strings used_tweets]> d)) = false)
    (Hnext : Forall clean next) :
  exists st1 st2,
    save_used_tweets used_tweets filename st = (Raises UnicodeEncodeError, st1)
    /\ files st1 !! filename
       = Some (Fragment (JObj (<["used_tweets" := of_strings used_tweets]> d)))
    /\ load_tweets filename st1 =
         (Returns (JArr [], JArr []),
          {| files := files st1;
             trace := trace st1 ++
               [FileRead filename; Print ("Error: Invalid JSON in " +:+ filename)] |})
    /\ save_used_tweets next filename st1 = (Returns tt, st2)
    /\ files st2 !! filename
       = Some (Document (JObj (<["used_tweets" := of_strings next]>
                                 (<["tweets" := JArr []]> ∅)))).
Proof.
  eexists _, _. split; [by apply save_used_tweets_dict_cut|].
  cbn [files trace]. split; [by rewrite lookup_insert_eq|]. split; [|split].
  - apply (load_tweets_fragment filename
             (JObj (<["used_tweets" := of_strings used_tweets]> d))).
    cbn [files]. by rewrite lookup_insert_eq.
  - apply save_used_tweets_fallback; [| |done].
    + cbn [files]. by rewrite lookup_insert_eq.
    + split; [done|]. cbn [files]. by rewrite lookup_insert_eq.
  - cbn [files]. rewrite lookup_insert_eq. unfold empty_data.
    by rewrite insert_insert_eq.
Qed.

Lemma failed_save_costs_the_pool_witness :
  demo_files !! tweets_json = Some (Document (JObj demo_data))
  /\ tweets_json <> EmptyString
  /\ encodable (JObj (<["used_tweets" := of_strings ["A"; lone_surrogate]]> demo_data))
     = false
  /\ Forall clean ["A"; "B"]
  /\ exists st1 st2,
       save_used_tweets ["A"; lone_surrogate] tweets_json
         {| files := demo_files; trace := [] |}
       = (Raises UnicodeEncodeError, st1)
       /\ save_used_tweets ["A"; "B"] tweets_json st1 = (Returns tt, st2)
       /\ files st2 !! tweets_json
          = Some (Document (JObj (<["used_tweets" := of_strings ["A"; "B"]]>
                                    (<["tweets" := JArr []]> ∅)))).
Proof.
  assert (demo_files !! tweets_json = Some (Document (JObj demo_data))) as Hfile
    by reflexivity.
  assert (tweets_json <> EmptyString) as Hname by discriminate.
  assert (encodable (JObj (<["used_tweets" := of_strings ["A"; lone_surrogate]]> demo_data))
          = false) as Hbad by (vm_compute; reflexivity).
  assert (Forall clean ["A"; "B"]) as Hnext by clean_list.
  split; [exact Hfile|]. split; [exact Hname|]. split; [exact Hbad|].
  split; [exact Hnext|].
  destruct (failed_save_costs_the_pool ["A"; lone_surrogate] ["A"; "B"] tweets_json
              {| files := demo_files; trace := [] |} demo_data Hfile Hname Hbad Hnext)
    as (st1 & st2 & Hsave & _ & _ & Hsave2 & Hfiles).
  exists st1, st2. split; [exact Hsave|]. split; [exact Hsave2|exact Hfiles].
Defined.
